(** * FX forward curves and hedging analysis: a shallow embedding

    The development embeds the quantitative core of the repository:

    - [FXDataFetcher] / [FXDataSimulator] ([src/fx_data_fetcher.py],
      [src/fx_data_simulator.py]): [calculate_forward_rate] and
      [build_forward_curve];
    - [HedgingAnalyzer] ([src/hedging_analyzer.py]): the constructor,
      [calculate_hedge_cost], [scenario_analysis] and
      [generate_hedge_recommendation].

    Modelling conventions.

    - A Python [float] is modelled by an exact rational ([Q]): the four
      operations are the exact ones, there is no overflow, no NaN and no
      signed zero, and [round(x, n)] is round-half-to-even on the exact
      value.  Numeric values are compared with [==] ([Qeq]), as Python's
      [==] compares floats by value.
    - A Python exception is a value of [exn]; a function that may raise
      returns a [result].
    - Division of two Python floats raises [ZeroDivisionError] on a zero
      divisor ([py_div]); division of numpy scalars (values read back from
      a DataFrame) does not raise and yields inf or nan ([np_div]).
    - A pandas DataFrame is the list of its rows, a row is a record.
    - [datetime.now()] is an input: the wall clock is a function from the
      number of readings taken so far to the reading. *)

From Stdlib Require Import ZArith QArith Qround Qabs Lqa Lia.
From Stdlib Require Import String Ascii List DecimalString.
From stdpp Require Import base option list strings gmap.

Local Open Scope Z_scope.
Local Open Scope Q_scope.

(** ** Exceptions and results *)

Inductive exn : Type :=
| KeyError (key : string)
| IndexError
| ZeroDivisionError
| OverflowError
| ValueError (msg : string).

Inductive result (A : Type) : Type :=
| Ok (a : A)
| Err (e : exn).
Arguments Ok {A} a.
Arguments Err {A} e.

#[global] Instance result_ret : MRet result := fun A a => Ok a.
#[global] Instance result_bind : MBind result := fun A B f m =>
  match m with
  | Ok a => f a
  | Err e => Err e
  end.

Definition is_Ok {A} (r : result A) : Prop := exists a, r = Ok a.

(** ** Numbers *)

Module Num.

(** Round-half-to-even of an exact value to an integer, as Python's
    [round] and numpy's [rint] do. *)
Definition round_half_even (x : Q) : Z :=
  let f := Qfloor x in
  match Qcompare (x - inject_Z f) (1 # 2) with
  | Lt => f
  | Gt => (f + 1)%Z
  | Eq => if Z.even f then f else (f + 1)%Z
  end.

Definition pow10 (ndigits : nat) : Q := inject_Z (10 ^ Z.of_nat ndigits).

(** [round(x, ndigits)] for [ndigits >= 0]: the multiple of [10^-ndigits]
    nearest to [x], ties to the even multiple, as a fraction over
    [10^ndigits]. *)
Definition py_round (x : Q) (ndigits : nat) : Q :=
  round_half_even (x * pow10 ndigits) # Z.to_pos (10 ^ Z.of_nat ndigits).

(** Division of Python floats. *)
Definition py_div (x y : Q) : result Q :=
  if Qeq_bool y 0 then Err ZeroDivisionError else Ok (x / y).

(** [int(x)]: truncation towards zero. *)
Definition py_int (x : Q) : Z := Z.quot (Qnum x) (Zpos (Qden x)).

(** Values of numpy float arithmetic that may have left the finite range
    through a division by zero. *)
Inductive npfloat : Type :=
| Fin (q : Q)
| Inf (negative : bool)
| NaN.

Definition np_div (x y : Q) : npfloat :=
  if Qeq_bool y 0 then
    match Qcompare x 0 with
    | Eq => NaN
    | Lt => Inf true
    | Gt => Inf false
    end
  else Fin (x / y).

Definition np_mul (v : npfloat) (k : Q) : npfloat :=
  match v with
  | Fin q => Fin (q * k)
  | Inf s =>
      match Qcompare k 0 with
      | Eq => NaN
      | Lt => Inf (negb s)
      | Gt => Inf s
      end
  | NaN => NaN
  end.

Definition np_round (v : npfloat) (ndigits : nat) : npfloat :=
  match v with
  | Fin q => Fin (py_round q ndigits)
  | _ => v
  end.

End Num.
Import Num.

(** ** Strings and sequences *)

(** [s.split(sep)] for a one-character separator. *)
Fixpoint split (sep : ascii) (s : string) : list string :=
  match s with
  | EmptyString => [EmptyString]
  | String c rest =>
      if Ascii.eqb c sep then EmptyString :: split sep rest
      else match split sep rest with
           | [] => [String c EmptyString]
           | w :: ws => String c w :: ws
           end
  end.

(** [l[i]] and [column.iloc[i]] for [i >= 0]. *)
Definition py_index {A} (l : list A) (i : nat) : result A :=
  match l !! i with
  | Some a => Ok a
  | None => Err IndexError
  end.

(** [dict[key]]. *)
Definition py_getitem (d : gmap string Q) (key : string) : result Q :=
  match d !! key with
  | Some v => Ok v
  | None => Err (KeyError key)
  end.

Definition is_upper (c : ascii) : bool :=
  (65 <=? nat_of_ascii c)%nat && (nat_of_ascii c <=? 90)%nat.

Definition lower_ascii (c : ascii) : ascii :=
  if is_upper c then ascii_of_nat (nat_of_ascii c + 32) else c.

(** [s.lower()].  Strings are byte strings here; outside ASCII Python's
    [lower] never produces an ASCII letter other than [k], so comparing the
    result with an ASCII word without [k] is decided by the ASCII letters. *)
Fixpoint lower (s : string) : string :=
  match s with
  | EmptyString => EmptyString
  | String c rest => String (lower_ascii c) (lower rest)
  end.

(** ** Number formatting *)

Module Format.

Definition digits (n : Z) : string := NilZero.string_of_uint (N.to_uint (Z.to_N n)).

(** [str(n)] for an integer. *)
Definition str_int (n : Z) : string :=
  if (n <? 0)%Z then "-" +:+ digits (- n) else digits n.

Fixpoint zeros (n : nat) : string :=
  match n with
  | O => EmptyString
  | S n' => String "0" (zeros n')
  end.

Definition pad_left (width : nat) (s : string) : string :=
  zeros (width - String.length s) +:+ s.

(** Thousands separators, on the reversed digit list. *)
Fixpoint group3 (rev_digits : list ascii) : list ascii :=
  match rev_digits with
  | a :: b :: c :: ((_ :: _) as rest) => a :: b :: c :: ","%char :: group3 rest
  | _ => rev_digits
  end.

Definition grouped (s : string) : string :=
  string_of_list_ascii (rev (group3 (rev (list_ascii_of_string s)))).

(** [format(x, ".<prec>f")], and [",.<prec>f"] when [comma] is set. *)
Definition fixed (x : Q) (prec : nat) (comma : bool) : string :=
  let scaled := round_half_even (Qabs x * pow10 prec) in
  let unit := (10 ^ Z.of_nat prec)%Z in
  let int_part := digits (scaled / unit) in
  let frac_part :=
    match prec with
    | O => EmptyString
    | _ => "." +:+ pad_left prec (digits (scaled mod unit))
    end in
  (if Qlt_le_dec x 0 then "-" else "") +:+
  (if comma then grouped int_part else int_part) +:+ frac_part.

Definition np_fixed (v : npfloat) (prec : nat) : string :=
  match v with
  | Fin q => fixed q prec false
  | Inf false => "inf"
  | Inf true => "-inf"
  | NaN => "nan"
  end.

End Format.

(** ** Dates and the wall clock *)

Module Datetime.

(** A [datetime]: the proleptic Gregorian ordinal of its date (day 1 is
    0001-01-01) and the microseconds since midnight. *)
Record datetime : Type := {
  ordinal : Z;
  microsecond_of_day : Z
}.

Definition MAXORDINAL : Z := 3652059.

(** [dt + timedelta(days=days)]. *)
Definition add_days (dt : datetime) (days : Z) : result datetime :=
  let o := (ordinal dt + days)%Z in
  if ((1 <=? o) && (o <=? MAXORDINAL))%Z
  then Ok {| ordinal := o; microsecond_of_day := microsecond_of_day dt |}
  else Err OverflowError.

Definition is_leap (year : Z) : bool :=
  ((year mod 4 =? 0) && (negb (year mod 100 =? 0) || (year mod 400 =? 0)))%Z.

Definition days_in_months (year : Z) : list Z :=
  [31; if is_leap year then 29 else 28; 31; 30; 31; 30; 31; 31; 30; 31; 30; 31]%Z.

(** The month and day of the [n]-th day (from 0) of a year. *)
Fixpoint month_day (months : list Z) (month n : Z) : Z * Z :=
  match months with
  | [] => (month, n + 1)%Z
  | len :: rest =>
      if (n <? len)%Z then (month, n + 1)%Z
      else month_day rest (month + 1)%Z (n - len)%Z
  end.

(** Year, month and day of an ordinal. *)
Definition ord2ymd (o : Z) : Z * Z * Z :=
  let n := (o - 1)%Z in
  let n400 := (n / 146097)%Z in
  let n := (n mod 146097)%Z in
  let n100 := (n / 36524)%Z in
  let n := (n mod 36524)%Z in
  let n4 := (n / 1461)%Z in
  let n := (n mod 1461)%Z in
  let n1 := (n / 365)%Z in
  let n := (n mod 365)%Z in
  let year := (n400 * 400 + 1 + n100 * 100 + n4 * 4 + n1)%Z in
  if ((n1 =? 4) || (n100 =? 4))%Z then ((year - 1)%Z, 12%Z, 31%Z)
  else let '(m, d) := month_day (days_in_months year) 1 n in (year, m, d).

(** [dt.strftime('%Y-%m-%d')]; a year before 1000, whose rendering
    depends on the platform's C library, is padded to four digits. *)
Definition strftime_ymd (dt : datetime) : string :=
  let '(y, m, d) := ord2ymd (ordinal dt) in
  Format.pad_left 4 (Format.digits y) +:+ "-" +:+
  Format.pad_left 2 (Format.digits m) +:+ "-" +:+
  Format.pad_left 2 (Format.digits d).

(** The wall clock: the value of the [k]-th call of [datetime.now()]. *)
Definition clock : Type := nat -> datetime.

End Datetime.
Import Datetime.

(** ** Forward curves *)

(** A row of the DataFrame that [build_forward_curve] returns. *)
Record CurveRow : Type := {
  Pair : string;
  Tenor : string;
  Days : Z;
  Forward_Rate : Q;
  Forward_Points : Q;
  Settlement_Date : string
}.

(** A row of the DataFrame that the fetcher's [get_spot_rates] returns. *)
Record FetchedSpot : Type := {
  fs_Ticker : string;
  fs_Pair : string;
  fs_Spot_Rate : Q;
  fs_Timestamp : datetime
}.

(** A row of the DataFrame that the simulator's [get_spot_rates] returns. *)
Record SimulatedSpot : Type := {
  ss_Pair : string;
  ss_Spot_Rate : Q;
  ss_Timestamp : datetime
}.

(** What [yf.Ticker(ticker).history(period='1d')] does for a ticker: the
    download, or a later read of it inside the [try], raises; or it yields
    a frame, given by its [Close] column (empty for an empty frame). *)
Inductive history : Type :=
| Raises
| Closes (close : list Q).

Module FXDataFetcher.

(** Of the attributes of the class, the one the methods below read. *)
Record t : Type := {
  interest_rates : gmap string Q
}.

(** The rate table of [__init__]. *)
Definition init : t := {|
  interest_rates :=
    <["USD" := 0.0450]> (<["EUR" := 0.0300]> (<["GBP" := 0.0475]>
    (<["JPY" := 0.0010]> (<["CAD" := 0.0375]> (<["AUD" := 0.0400]>
    (<["CHF" := 0.0125]> ∅))))))
|}.

(** [calculate_forward_rate]; the method does not read [self]. *)
Definition calculate_forward_rate
    (spot_rate domestic_rate foreign_rate : Q) (days : Z) : result Q :=
  let t := inject_Z days / 365 in
  ratio ← py_div (1 + domestic_rate * t) (1 + foreign_rate * t);
  let forward_rate := spot_rate * ratio in
  mret (py_round forward_rate 4).

(** The [tenors] dict, in its iteration order. *)
Definition tenors : list (string * Z) :=
  [("Spot", 0); ("1W", 7); ("1M", 30); ("2M", 60);
   ("3M", 90); ("6M", 180); ("9M", 270); ("1Y", 365)]%Z.

(** The body of the loop over [tenors.items()], up to the [append]:
    [now] is the value [datetime.now()] returns in this iteration. *)
Definition tenor_row (self : t) (pair base_ccy quote_ccy : string)
    (spot_rate : Q) (now : datetime) (item : string * Z) : result CurveRow :=
  let '(tenor_name, days) := item in
  '(forward_rate, forward_points) ←
    (if (days =? 0)%Z then mret (spot_rate, 0)
     else
       '(domestic_rate, foreign_rate) ←
         (if String.eqb quote_ccy "USD" then
            domestic_rate ← py_getitem (interest_rates self) "USD";
            foreign_rate ← py_getitem (interest_rates self) base_ccy;
            mret (domestic_rate, foreign_rate)
          else
            domestic_rate ← py_getitem (interest_rates self) quote_ccy;
            foreign_rate ← py_getitem (interest_rates self) "USD";
            mret (domestic_rate, foreign_rate));
       forward_rate ←
         calculate_forward_rate spot_rate domestic_rate foreign_rate days;
       let forward_points := py_round ((forward_rate - spot_rate) * 10000) 2 in
       mret (forward_rate, forward_points));
  settlement ← add_days now days;
  mret {| Pair := pair;
          Tenor := tenor_name;
          Days := days;
          Forward_Rate := forward_rate;
          Forward_Points := forward_points;
          Settlement_Date := strftime_ymd settlement |}.

(** The loop: [forward_data] is the list built so far, [tick] the number
    of clock readings taken so far. *)
Fixpoint build_loop (self : t) (pair base_ccy quote_ccy : string)
    (spot_rate : Q) (now : clock) (items : list (string * Z))
    (forward_data : list CurveRow) (tick : nat) : result (list CurveRow) :=
  match items with
  | [] => mret forward_data
  | item :: rest =>
      row ← tenor_row self pair base_ccy quote_ccy spot_rate (now tick) item;
      build_loop self pair base_ccy quote_ccy spot_rate now rest
        (forward_data ++ [row]) (S tick)
  end.

Definition build_forward_curve (self : t) (pair : string) (spot_rate : Q)
    (now : clock) : result (list CurveRow) :=
  base_ccy ← py_index (split "/" pair) 0;
  quote_ccy ← py_index (split "/" pair) 1;
  build_loop self pair base_ccy quote_ccy spot_rate now tenors [] 0.

(** The tickers and their display names of [__init__]. *)
Definition major_pairs : list string :=
  ["EURUSD=X"; "GBPUSD=X"; "USDJPY=X"; "USDCAD=X"; "AUDUSD=X"; "USDCHF=X"].

Definition pair_names : gmap string string :=
  <["EURUSD=X" := "EUR/USD"]> (<["GBPUSD=X" := "GBP/USD"]>
  (<["USDJPY=X" := "USD/JPY"]> (<["USDCAD=X" := "USD/CAD"]>
  (<["AUDUSD=X" := "AUD/USD"]> (<["USDCHF=X" := "USD/CHF"]> ∅))))).

(** The loop of [get_spot_rates] over [self.major_pairs]: [yf] is what the
    download does for each ticker, [spot_data] the list built so far and
    [tick] the number of clock readings taken so far.  Every exception
    raised inside the [try] is caught and the ticker is skipped. *)
Fixpoint spot_loop (pair_names : gmap string string) (yf : string -> history)
    (now : clock) (tickers : list string) (spot_data : list FetchedSpot)
    (tick : nat) : list FetchedSpot :=
  match tickers with
  | [] => spot_data
  | ticker :: rest =>
      match yf ticker with
      | Raises => spot_loop pair_names yf now rest spot_data tick
      | Closes close =>
          match last close with
          | None => spot_loop pair_names yf now rest spot_data tick
          | Some spot_rate =>
              match pair_names !! ticker with
              | None => spot_loop pair_names yf now rest spot_data tick
              | Some name =>
                  spot_loop pair_names yf now rest
                    (spot_data ++
                     [{| fs_Ticker := ticker;
                         fs_Pair := name;
                         fs_Spot_Rate := py_round spot_rate 4;
                         fs_Timestamp := now tick |}])
                    (S tick)
              end
          end
      end
  end.

(** [get_spot_rates]; the attributes [self.major_pairs] and
    [self.pair_names] are passed as arguments. *)
Definition get_spot_rates (major_pairs : list string)
    (pair_names : gmap string string) (yf : string -> history) (now : clock)
    : list FetchedSpot :=
  spot_loop pair_names yf now major_pairs [] 0.

(** The loop of [get_all_forward_curves] over the rows of [spot_df], given
    by their [Pair] and [Spot_Rate]. *)
Fixpoint curves_loop (self : t) (now : clock) (rows : list (string * Q))
    (forward_curves : gmap string (list CurveRow)) (tick : nat)
    : result (gmap string (list CurveRow)) :=
  match rows with
  | [] => mret forward_curves
  | (this_pair, spot) :: rest =>
      curve ← build_forward_curve self this_pair spot (fun k => now (tick + k)%nat);
      curves_loop self now rest (<[this_pair := curve]> forward_curves)
        (tick + length tenors)
  end.

Definition get_all_forward_curves (self : t) (major_pairs : list string)
    (pair_names : gmap string string) (yf : string -> history) (now : clock)
    : result (gmap string (list CurveRow)) :=
  let spot_df := get_spot_rates major_pairs pair_names yf now in
  curves_loop self now ((fun row => (fs_Pair row, fs_Spot_Rate row)) <$> spot_df)
    ∅ (length spot_df).

End FXDataFetcher.

Module FXDataSimulator.

Record t : Type := {
  interest_rates : gmap string Q
}.

Definition init : t := {|
  interest_rates :=
    <["USD" := 0.0450]> (<["EUR" := 0.0300]> (<["GBP" := 0.0475]>
    (<["JPY" := 0.0010]> (<["CAD" := 0.0375]> (<["AUD" := 0.0400]>
    (<["CHF" := 0.0125]> ∅))))))
|}.

Definition calculate_forward_rate
    (spot_rate domestic_rate foreign_rate : Q) (days : Z) : result Q :=
  let t := inject_Z days / 365 in
  ratio ← py_div (1 + domestic_rate * t) (1 + foreign_rate * t);
  let forward_rate := spot_rate * ratio in
  mret (py_round forward_rate 4).

Definition tenors : list (string * Z) :=
  [("Spot", 0); ("1W", 7); ("1M", 30); ("2M", 60);
   ("3M", 90); ("6M", 180); ("9M", 270); ("1Y", 365)]%Z.

Definition tenor_row (self : t) (pair base_ccy quote_ccy : string)
    (spot_rate : Q) (now : datetime) (item : string * Z) : result CurveRow :=
  let '(tenor_name, days) := item in
  '(forward_rate, forward_points) ←
    (if (days =? 0)%Z then mret (spot_rate, 0)
     else
       '(domestic_rate, foreign_rate) ←
         (if String.eqb quote_ccy "USD" then
            domestic_rate ← py_getitem (interest_rates self) "USD";
            foreign_rate ← py_getitem (interest_rates self) base_ccy;
            mret (domestic_rate, foreign_rate)
          else
            domestic_rate ← py_getitem (interest_rates self) quote_ccy;
            foreign_rate ← py_getitem (interest_rates self) "USD";
            mret (domestic_rate, foreign_rate));
       forward_rate ←
         calculate_forward_rate spot_rate domestic_rate foreign_rate days;
       let forward_points := py_round ((forward_rate - spot_rate) * 10000) 2 in
       mret (forward_rate, forward_points));
  settlement ← add_days now days;
  mret {| Pair := pair;
          Tenor := tenor_name;
          Days := days;
          Forward_Rate := forward_rate;
          Forward_Points := forward_points;
          Settlement_Date := strftime_ymd settlement |}.

Fixpoint build_loop (self : t) (pair base_ccy quote_ccy : string)
    (spot_rate : Q) (now : clock) (items : list (string * Z))
    (forward_data : list CurveRow) (tick : nat) : result (list CurveRow) :=
  match items with
  | [] => mret forward_data
  | item :: rest =>
      row ← tenor_row self pair base_ccy quote_ccy spot_rate (now tick) item;
      build_loop self pair base_ccy quote_ccy spot_rate now rest
        (forward_data ++ [row]) (S tick)
  end.

Definition build_forward_curve (self : t) (pair : string) (spot_rate : Q)
    (now : clock) : result (list CurveRow) :=
  base_ccy ← py_index (split "/" pair) 0;
  quote_ccy ← py_index (split "/" pair) 1;
  build_loop self pair base_ccy quote_ccy spot_rate now tenors [] 0.

(** The simulator seen as a fetcher with the same rate table. *)
Definition as_fetcher (self : t) : FXDataFetcher.t :=
  {| FXDataFetcher.interest_rates := interest_rates self |}.

(** The spot table of [__init__], in its iteration order. *)
Definition spot_rates : list (string * Q) :=
  [("EUR/USD", 1.0545); ("GBP/USD", 1.2675); ("USD/JPY", 149.85);
   ("USD/CAD", 1.4320); ("AUD/USD", 0.6315); ("USD/CHF", 0.8895)].

(** The loop of [get_spot_rates] over [self.spot_rates.items()]:
    [uniform k] is the value of the [k]-th call of
    [np.random.uniform(-0.005, 0.005)], and [tick] counts the draws and the
    clock readings taken so far, one of each per row. *)
Fixpoint spot_loop (uniform : nat -> Q) (now : clock)
    (items : list (string * Q)) (spot_data : list SimulatedSpot) (tick : nat)
    : list SimulatedSpot :=
  match items with
  | [] => spot_data
  | (this_pair, rate) :: rest =>
      let variation := uniform tick in
      let simulated_rate := rate * (1 + variation) in
      spot_loop uniform now rest
        (spot_data ++
         [{| ss_Pair := this_pair;
             ss_Spot_Rate := py_round simulated_rate 4;
             ss_Timestamp := now tick |}])
        (S tick)
  end.

(** [get_spot_rates]; the attribute [self.spot_rates] is passed as an
    argument. *)
Definition get_spot_rates (spot_rates : list (string * Q)) (uniform : nat -> Q)
    (now : clock) : list SimulatedSpot :=
  spot_loop uniform now spot_rates [] 0.

Fixpoint curves_loop (self : t) (now : clock) (rows : list (string * Q))
    (forward_curves : gmap string (list CurveRow)) (tick : nat)
    : result (gmap string (list CurveRow)) :=
  match rows with
  | [] => mret forward_curves
  | (this_pair, spot) :: rest =>
      curve ← build_forward_curve self this_pair spot (fun k => now (tick + k)%nat);
      curves_loop self now rest (<[this_pair := curve]> forward_curves)
        (tick + length tenors)
  end.

Definition get_all_forward_curves (self : t) (spot_rates : list (string * Q))
    (uniform : nat -> Q) (now : clock) : result (gmap string (list CurveRow)) :=
  let spot_df := get_spot_rates spot_rates uniform now in
  curves_loop self now ((fun row => (ss_Pair row, ss_Spot_Rate row)) <$> spot_df)
    ∅ (length spot_df).

End FXDataSimulator.

(** ** Hedging analysis *)

(** The dict returned by [calculate_hedge_cost]. *)
Record HedgeInfo : Type := {
  hi_Pair : string;
  hi_Notional : Q;
  hi_Hedge_Ratio : Q;
  hi_Hedged_Amount : Q;
  hi_Unhedged_Amount : Q;
  hi_Tenor : string;
  hi_Settlement_Date : string;
  hi_Spot_Rate : Q;
  hi_Forward_Rate : Q;
  hi_Forward_Points : Q;
  hi_Premium_Discount_pct : npfloat;
  hi_Locked_In_Rate : Q
}.

(** A row of the DataFrame returned by [scenario_analysis]. *)
Record ScenarioRow : Type := {
  Future_Spot : Q;
  Spot_Change_pct : npfloat;
  Hedged_PnL : Q;
  Unhedged_PnL : Q;
  Total_PnL : Q;
  Effective_Rate : Q
}.

(** The dict returned by [generate_hedge_recommendation]. *)
Record Recommendation : Type := {
  rec_Recommendation : string;
  rec_Rationale : string;
  rec_Hedge_Details : HedgeInfo;
  rec_Forward_Premium_Discount : string;
  rec_Action : string
}.

(** A row of the DataFrame returned by [compare_hedge_ratios]. *)
Record ComparisonRow : Type := {
  cmp_Hedge_Ratio : string;
  cmp_Hedged_Amount : Q;
  cmp_Unhedged_Amount : Q;
  cmp_Total_PnL : Q;
  cmp_Effective_Rate : Q
}.

Module HedgingAnalyzer.

Record t : Type := {
  forward_curve : list CurveRow;
  pair : string
}.

(** [__init__(forward_curve)]. *)
Definition init (forward_curve : list CurveRow) : result t :=
  pair ← py_index (Pair <$> forward_curve) 0;
  mret {| forward_curve := forward_curve; pair := pair |}.

(** [df[df['Tenor'] == tenor]]. *)
Definition rows_with_tenor (df : list CurveRow) (tenor : string) : list CurveRow :=
  filter (fun row => Tenor row = tenor) df.

(** The message of the [ValueError] raised for a tenor that has no row. *)
Definition TenorNotFound (tenor : string) : exn :=
  ValueError ("Tenor " +:+ tenor +:+ " not found in forward curve").

Definition calculate_hedge_cost (self : t) (notional : Q) (tenor : string)
    (hedge_ratio : Q) : result HedgeInfo :=
  let tenor_data := rows_with_tenor (forward_curve self) tenor in
  match tenor_data with
  | [] => Err (TenorNotFound tenor)
  | _ :: _ =>
      forward_rate ← py_index (Forward_Rate <$> tenor_data) 0;
      spot_rate ←
        py_index (Forward_Rate <$> rows_with_tenor (forward_curve self) "Spot") 0;
      forward_points ← py_index (Forward_Points <$> tenor_data) 0;
      settlement_date ← py_index (Settlement_Date <$> tenor_data) 0;
      let hedged_amount := notional * hedge_ratio in
      let unhedged_amount := notional * (1 - hedge_ratio) in
      let premium_discount := np_mul (np_div (forward_rate - spot_rate) spot_rate) 100 in
      mret {| hi_Pair := pair self;
              hi_Notional := notional;
              hi_Hedge_Ratio := hedge_ratio;
              hi_Hedged_Amount := hedged_amount;
              hi_Unhedged_Amount := unhedged_amount;
              hi_Tenor := tenor;
              hi_Settlement_Date := settlement_date;
              hi_Spot_Rate := spot_rate;
              hi_Forward_Rate := forward_rate;
              hi_Forward_Points := forward_points;
              hi_Premium_Discount_pct := np_round premium_discount 4;
              hi_Locked_In_Rate := forward_rate |}
  end.

(** The five default scenarios around the current spot. *)
Definition default_scenarios (current_spot : Q) : list Q :=
  [current_spot * (0.90); current_spot * (0.95); current_spot;
   current_spot * (1.05); current_spot * (1.10)].

(** The body of the loop over [spot_scenarios], up to the [append]. *)
Definition scenario_row (hedge_info : HedgeInfo) (notional hedge_ratio : Q)
    (forward_rate current_spot future_spot : Q) : ScenarioRow :=
  let hedged_amount := hi_Hedged_Amount hedge_info in
  let hedged_pnl := hedged_amount * (future_spot - forward_rate) in
  let unhedged_amount := hi_Unhedged_Amount hedge_info in
  let unhedged_pnl := unhedged_amount * (future_spot - current_spot) in
  let total_pnl := hedged_pnl + unhedged_pnl in
  let effective_rate :=
    if Qlt_le_dec 0 notional
    then forward_rate * hedge_ratio + future_spot * (1 - hedge_ratio)
    else future_spot in
  let spot_change_pct := np_mul (np_div (future_spot - current_spot) current_spot) 100 in
  {| Future_Spot := py_round future_spot 4;
     Spot_Change_pct := np_round spot_change_pct 2;
     Hedged_PnL := py_round hedged_pnl 2;
     Unhedged_PnL := py_round unhedged_pnl 2;
     Total_PnL := py_round total_pnl 2;
     Effective_Rate := py_round effective_rate 4 |}.

(** [spot_scenarios] is [None] when the argument is left out. *)
Definition scenario_analysis (self : t) (notional : Q) (tenor : string)
    (hedge_ratio : Q) (spot_scenarios : option (list Q)) : result (list ScenarioRow) :=
  hedge_info ← calculate_hedge_cost self notional tenor hedge_ratio;
  let forward_rate := hi_Forward_Rate hedge_info in
  let current_spot := hi_Spot_Rate hedge_info in
  let spot_scenarios :=
    match spot_scenarios with
    | None => default_scenarios current_spot
    | Some l => l
    end in
  mret (fold_left
          (fun results future_spot =>
             results ++ [scenario_row hedge_info notional hedge_ratio
                           forward_rate current_spot future_spot])
          spot_scenarios []).

Definition neutral_rationale : string :=
  "With a neutral market view, consider a 75% hedge to protect core exposure while maintaining some flexibility.".

Definition generate_hedge_recommendation (self : t) (notional : Q)
    (tenor market_view : string) : result Recommendation :=
  hedge_info ← calculate_hedge_cost self notional tenor 1;
  let spot := hi_Spot_Rate hedge_info in
  let forward := hi_Forward_Rate hedge_info in
  '(recommended_ratio, rationale) ←
    (if String.eqb (lower market_view) "bullish" then
       base ← py_index (split "/" (pair self)) 0;
       mret (0.50,
             "With a bullish view on " +:+ base +:+
             ", consider a 50% hedge to maintain some upside exposure while protecting against adverse moves.")
     else if String.eqb (lower market_view) "bearish" then
       base ← py_index (split "/" (pair self)) 0;
       mret (1.00,
             "With a bearish view on " +:+ base +:+
             ", consider a 100% hedge to lock in current forward rate and eliminate downside risk.")
     else mret (0.75, neutral_rationale));
  hedge_details ← calculate_hedge_cost self notional tenor recommended_ratio;
  let recommendation :=
    Format.str_int (py_int (recommended_ratio * 100)) +:+ "% Hedge Ratio" in
  let premium :=
    Format.np_fixed (hi_Premium_Discount_pct hedge_details) 2 +:+ "%" in
  base ← py_index (split "/" (pair self)) 0;
  quote ← py_index (split "/" (pair self)) 1;
  mret {| rec_Recommendation := recommendation;
          rec_Rationale := rationale;
          rec_Hedge_Details := hedge_details;
          rec_Forward_Premium_Discount := premium;
          rec_Action :=
            "Enter FX Forward to sell " +:+
            Format.fixed (hi_Hedged_Amount hedge_details) 0 true +:+ " " +:+
            base +:+ " vs " +:+ quote +:+ " at " +:+
            Format.fixed forward 4 false +:+ " for " +:+ tenor +:+ " settlement" |}.

(** The ratio grid of [compare_hedge_ratios]. *)
Definition hedge_ratios : list Q := [0.0; 0.25; 0.50; 0.75; 1.0].

(** The body of the loop over [hedge_ratios], up to the [append]. *)
Definition comparison_row (self : t) (notional : Q) (tenor : string)
    (future_spot ratio : Q) : result ComparisonRow :=
  scenario_df ← scenario_analysis self notional tenor ratio (Some [future_spot]);
  total_pnl ← py_index (Total_PnL <$> scenario_df) 0;
  effective_rate ← py_index (Effective_Rate <$> scenario_df) 0;
  mret {| cmp_Hedge_Ratio := Format.str_int (py_int (ratio * 100)) +:+ "%";
          cmp_Hedged_Amount := notional * ratio;
          cmp_Unhedged_Amount := notional * (1 - ratio);
          cmp_Total_PnL := total_pnl;
          cmp_Effective_Rate := effective_rate |}.

Fixpoint comparison_loop (self : t) (notional : Q) (tenor : string)
    (future_spot : Q) (ratios : list Q) (results : list ComparisonRow)
    : result (list ComparisonRow) :=
  match ratios with
  | [] => mret results
  | ratio :: rest =>
      row ← comparison_row self notional tenor future_spot ratio;
      comparison_loop self notional tenor future_spot rest (results ++ [row])
  end.

Definition compare_hedge_ratios (self : t) (notional : Q) (tenor : string)
    (future_spot : Q) : result (list ComparisonRow) :=
  comparison_loop self notional tenor future_spot hedge_ratios [].

End HedgingAnalyzer.

(** ** The specification's formulas

    The definitions of this section follow the words of the specification;
    the theorems below compare them with the code above. *)

Module Spec.

(** Year fraction of a day count, actual/365. *)
Definition year_fraction (days : Z) : Q := inject_Z days / 365.

(** The parity value before rounding:
    [spot × (1 + domestic_rate × t) / (1 + foreign_rate × t)]. *)
Definition parity (spot domestic_rate foreign_rate : Q) (days : Z) : Q :=
  let t := year_fraction days in
  spot * (1 + domestic_rate * t) / (1 + foreign_rate * t).

(** The parity forward, rounded to four decimal places. *)
Definition cirp_forward (spot domestic_rate foreign_rate : Q) (days : Z) : Q :=
  py_round (parity spot domestic_rate foreign_rate days) 4.

(** The divisor of the parity formula. *)
Definition denominator (foreign_rate : Q) (days : Z) : Q :=
  1 + foreign_rate * year_fraction days.

(** A value with at most [ndigits] decimal places. *)
Definition has_decimals (ndigits : nat) (x : Q) : Prop :=
  exists k : Z, x * pow10 ndigits == inject_Z k.

(** The direction rule: which entries of the rate table are the domestic
    and the foreign rate of the pair BASE/QUOTE. *)
Definition direction_rule (rates : gmap string Q) (base quote : string)
    (domestic_rate foreign_rate : Q) : Prop :=
  if decide (quote = "USD")
  then rates !! "USD" = Some domestic_rate /\ rates !! base = Some foreign_rate
  else rates !! quote = Some domestic_rate /\ rates !! "USD" = Some foreign_rate.

(** The eight fixed tenor labels. *)
Definition tenor_labels : list string :=
  ["Spot"; "1W"; "1M"; "2M"; "3M"; "6M"; "9M"; "1Y"].

(** A currency code, or any string without the separator. *)
Definition no_slash (s : string) : Prop :=
  ~ In "/"%char (list_ascii_of_string s).

(** A curve of the data model: one row per fixed label, in order. *)
Definition well_formed_curve (curve : list CurveRow) : Prop :=
  Tenor <$> curve = tenor_labels.

(** The pair BASE/QUOTE as the code receives it. *)
Definition pair_of (base quote : string) : string := base +:+ "/" +:+ quote.

(** [curve] is what [build_forward_curve], of the fetcher or of the
    simulator, returns over the rate table [rates]. *)
Definition built (rates : gmap string Q) (pair : string) (spot_rate : Q)
    (now : clock) (curve : list CurveRow) : Prop :=
  FXDataFetcher.build_forward_curve
    {| FXDataFetcher.interest_rates := rates |} pair spot_rate now = Ok curve
  \/ FXDataSimulator.build_forward_curve
       {| FXDataSimulator.interest_rates := rates |} pair spot_rate now = Ok curve.

(** The rendering of the calendar date with ordinal [date]. *)
Definition date_string (date : Z) : string :=
  strftime_ymd {| ordinal := date; microsecond_of_day := 0 |}.

(** The row of a scenario [S], in the words of the specification. *)
Definition scenario_row (notional hedge_ratio forward_rate current_spot S : Q)
    : ScenarioRow :=
  let hedged_pnl := (notional * hedge_ratio) * (S - forward_rate) in
  let unhedged_pnl := (notional * (1 - hedge_ratio)) * (S - current_spot) in
  {| Future_Spot := py_round S 4;
     Spot_Change_pct :=
       np_round (np_mul (np_div (S - current_spot) current_spot) 100) 2;
     Hedged_PnL := py_round hedged_pnl 2;
     Unhedged_PnL := py_round unhedged_pnl 2;
     Total_PnL := py_round (hedged_pnl + unhedged_pnl) 2;
     Effective_Rate :=
       py_round (if Qlt_le_dec 0 notional
                 then forward_rate * hedge_ratio + S * (1 - hedge_ratio)
                 else S) 4 |}.

(** Two characters that differ at most in the case of an ASCII letter. *)
Definition same_letter (c d : ascii) : Prop :=
  c = d \/
  (is_upper c = true /\ nat_of_ascii d = (nat_of_ascii c + 32)%nat) \/
  (is_upper d = true /\ nat_of_ascii c = (nat_of_ascii d + 32)%nat).

(** A word without upper-case letters. *)
Fixpoint no_upper (s : string) : bool :=
  match s with
  | EmptyString => true
  | String c s' => negb (is_upper c) && no_upper s'
  end.

(** [casing_of word s]: [s] is [word] in some casing. *)
Fixpoint casing_of (word s : string) : Prop :=
  match word, s with
  | EmptyString, EmptyString => True
  | String d word', String c s' => same_letter c d /\ casing_of word' s'
  | _, _ => False
  end.

(** All the readings of the clock that one call of [build_forward_curve]
    takes fall on the calendar date [as_of_date]. *)
Definition clock_on (now : clock) (as_of_date : Z) : Prop :=
  forall k, (k < length FXDataFetcher.tenors)%nat -> ordinal (now k) = as_of_date.

End Spec.

(** ** Sample data

    The simulator's USD/CAD quote, 1.4320, on 2024-12-31 (ordinal 739251). *)

Module Sample.

(** A call whose clock readings are all at midnight of 2024-12-31. *)
Definition usd_cad_clock : clock :=
  fun _ => {| ordinal := 739251; microsecond_of_day := 0 |}.

(** A call at noon of 2024-12-31, the readings one microsecond apart. *)
Definition noon_clock : clock :=
  fun k => {| ordinal := 739251;
              microsecond_of_day := 43200000000 + Z.of_nat k |}.

(** A call that starts one microsecond before midnight of 2024-12-31: the
    first reading of the clock falls on that day, the later ones on the
    next. *)
Definition midnight_clock : clock :=
  fun k =>
    match k with
    | O => {| ordinal := 739251; microsecond_of_day := 86399999999 |}
    | S _ => {| ordinal := 739252; microsecond_of_day := 0 |}
    end.

(** The USD/CAD curve at 1.4320 built on 2024-12-31. *)
Definition usd_cad_rows : list CurveRow :=
  [ {| Pair := "USD/CAD"; Tenor := "Spot"; Days := 0; Forward_Rate := 1.4320;
       Forward_Points := 0; Settlement_Date := "2024-12-31" |};
    {| Pair := "USD/CAD"; Tenor := "1W"; Days := 7; Forward_Rate := 1.4318;
       Forward_Points := -2.00; Settlement_Date := "2025-01-07" |};
    {| Pair := "USD/CAD"; Tenor := "1M"; Days := 30; Forward_Rate := 1.4311;
       Forward_Points := -9.00; Settlement_Date := "2025-01-30" |};
    {| Pair := "USD/CAD"; Tenor := "2M"; Days := 60; Forward_Rate := 1.4302;
       Forward_Points := -18.00; Settlement_Date := "2025-03-01" |};
    {| Pair := "USD/CAD"; Tenor := "3M"; Days := 90; Forward_Rate := 1.4294;
       Forward_Points := -26.00; Settlement_Date := "2025-03-31" |};
    {| Pair := "USD/CAD"; Tenor := "6M"; Days := 180; Forward_Rate := 1.4268;
       Forward_Points := -52.00; Settlement_Date := "2025-06-29" |};
    {| Pair := "USD/CAD"; Tenor := "9M"; Days := 270; Forward_Rate := 1.4243;
       Forward_Points := -77.00; Settlement_Date := "2025-09-27" |};
    {| Pair := "USD/CAD"; Tenor := "1Y"; Days := 365; Forward_Rate := 1.4217;
       Forward_Points := -103.00; Settlement_Date := "2025-12-31" |} ].

(** Its rows for one and for six months. *)
Definition usd_cad_1M : CurveRow :=
  {| Pair := "USD/CAD"; Tenor := "1M"; Days := 30; Forward_Rate := 1.4311;
     Forward_Points := -9.00; Settlement_Date := "2025-01-30" |}.

Definition usd_cad_6M : CurveRow :=
  {| Pair := "USD/CAD"; Tenor := "6M"; Days := 180; Forward_Rate := 1.4268;
     Forward_Points := -52.00; Settlement_Date := "2025-06-29" |}.

Definition usd_cad_analyzer : HedgingAnalyzer.t :=
  {| HedgingAnalyzer.forward_curve := usd_cad_rows;
     HedgingAnalyzer.pair := "USD/CAD" |}.

End Sample.
Import Sample.

(** ** Vocabulary of the further properties *)

Module Props.

(** The day counts of the eight tenors, in order. *)
Definition tenor_days : list Z := [0; 7; 30; 60; 90; 180; 270; 365]%Z.

(** A string that contains the separator of a pair. *)
Definition has_slash (s : string) : Prop := In "/"%char (list_ascii_of_string s).

(** The first currency code that the direction rule looks up in the rate
    table and does not find, if there is one. *)
Definition first_missing (rates : gmap string Q) (base quote : string)
    : option string :=
  let first := if decide (quote = "USD") then "USD" else quote in
  let second := if decide (quote = "USD") then base else "USD" in
  match rates !! first, rates !! second with
  | None, _ => Some first
  | Some _, None => Some second
  | Some _, Some _ => None
  end.

(** A row without its [Pair] column. *)
Definition columns (row : CurveRow) : string * Z * Q * Q * string :=
  (Tenor row, Days row, Forward_Rate row, Forward_Points row, Settlement_Date row).

(** The outcome of building a curve, without the [Pair] column. *)
Definition without_pair (r : result (list CurveRow))
    : result (list (string * Z * Q * Q * string)) :=
  match r with
  | Ok curve => Ok (columns <$> curve)
  | Err e => Err e
  end.

(** The first clock reading of a call is a date that [datetime] holds. *)
Definition valid_date (dt : datetime) : Prop :=
  (1 <= ordinal dt <= MAXORDINAL)%Z.

(** The labels of the ratio grid of [compare_hedge_ratios]. *)
Definition ratio_labels : list string := ["0%"; "25%"; "50%"; "75%"; "100%"].

(** The comparison row of a ratio, from the single-scenario row of
    [scenario_analysis] at that ratio. *)
Definition comparison_of (notional forward_rate current_spot future_spot ratio : Q)
    : ComparisonRow :=
  let scenario :=
    Spec.scenario_row notional ratio forward_rate current_spot future_spot in
  {| cmp_Hedge_Ratio := Format.str_int (py_int (ratio * 100)) +:+ "%";
     cmp_Hedged_Amount := notional * ratio;
     cmp_Unhedged_Amount := notional * (1 - ratio);
     cmp_Total_PnL := Total_PnL scenario;
     cmp_Effective_Rate := Effective_Rate scenario |}.

(** The total P&L before rounding, as a function of the hedge ratio. *)
Definition total_pnl (notional forward_rate current_spot future_spot ratio : Q) : Q :=
  notional * ratio * (future_spot - forward_rate)
  + notional * (1 - ratio) * (future_spot - current_spot).

(** A pair that [build_forward_curve] can quote from a rate table: it is
    written BASE/QUOTE, the table has the two rates of the direction rule,
    and the foreign one is not negative. *)
Definition quotable (rates : gmap string Q) (pair : string) : Prop :=
  exists base quote domestic_rate foreign_rate,
    pair = Spec.pair_of base quote
    /\ Spec.no_slash base /\ Spec.no_slash quote
    /\ Spec.direction_rule rates base quote domestic_rate foreign_rate
    /\ 0 <= foreign_rate.

(** The first [n] readings of the clock are dates that leave a year before
    the last date that [datetime] holds. *)
Definition clock_in_range (now : clock) (n : nat) : Prop :=
  forall k, (k < n)%nat -> (1 <= ordinal (now k) <= MAXORDINAL - 365)%Z.

(** What the fetcher keeps of a ticker: its display name and its last
    close rounded to four decimals, or nothing when the download raises,
    the frame is empty or the ticker has no display name. *)
Definition fetched (pair_names : gmap string string) (yf : string -> history)
    (ticker : string) : option (string * string * Q) :=
  match yf ticker with
  | Raises => None
  | Closes close =>
      match last close, pair_names !! ticker with
      | Some spot_rate, Some name => Some (ticker, name, py_round spot_rate 4)
      | _, _ => None
      end
  end.

End Props.

(** * Lemmas *)

(** ** Results *)

Lemma bind_Ok {A B} (f : A -> result B) (m : result A) (b : B) :
  m ≫= f = Ok b <-> exists a, m = Ok a /\ f a = Ok b.
Proof.
  destruct m as [a|e]; simpl.
  - split; [intros H; exists a; auto | intros (a' & [= <-] & H); exact H].
  - split; [discriminate | intros (a' & [=] & _)].
Qed.

(** ** Rounding *)

Section Rounding.

Lemma pow10_pos n : 0 < pow10 n.
Proof.
  unfold pow10. change 0 with (inject_Z 0). rewrite <- Zlt_Qlt.
  apply Z.pow_pos_nonneg; lia.
Qed.

Lemma round_half_even_comp x y : x == y -> round_half_even x = round_half_even y.
Proof.
  intros H. unfold round_half_even.
  rewrite (Qfloor_comp _ _ H).
  assert (E : x - inject_Z (Qfloor y) == y - inject_Z (Qfloor y)) by (rewrite H; reflexivity).
  rewrite (Qcompare_comp _ _ E _ _ (Qeq_refl (1 # 2))). reflexivity.
Qed.

Lemma round_half_even_Z k : round_half_even (inject_Z k) = k.
Proof.
  unfold round_half_even. rewrite Qfloor_Z.
  assert (E : inject_Z k - inject_Z k == 0) by ring.
  rewrite (Qcompare_comp _ _ E _ _ (Qeq_refl (1 # 2))). reflexivity.
Qed.

Lemma round_half_even_range x :
  (Qfloor x <= round_half_even x <= Qfloor x + 1)%Z.
Proof.
  unfold round_half_even.
  destruct (Qcompare _ _); [destruct (Z.even _) | |]; lia.
Qed.

Lemma round_half_even_mono x y :
  x <= y -> (round_half_even x <= round_half_even y)%Z.
Proof.
  intros H.
  pose proof (Qfloor_resp_le _ _ H) as Hf.
  destruct (Z.eq_dec (Qfloor x) (Qfloor y)) as [E | NE].
  - unfold round_half_even. rewrite <- E.
    destruct (Qcompare_spec (x - inject_Z (Qfloor x)) (1 # 2)) as [Hx | Hx | Hx];
      destruct (Qcompare_spec (y - inject_Z (Qfloor x)) (1 # 2)) as [Hy | Hy | Hy];
      try (destruct (Z.even (Qfloor x))); try lia; exfalso; lra.
  - pose proof (round_half_even_range x). pose proof (round_half_even_range y). lia.
Qed.

Lemma py_round_value x n :
  py_round x n == inject_Z (round_half_even (x * pow10 n)) / pow10 n.
Proof.
  unfold py_round, pow10. rewrite Qmake_Qdiv, Z2Pos.id; [reflexivity |].
  apply Z.pow_pos_nonneg; lia.
Qed.

Lemma py_round_comp x y n : x == y -> py_round x n = py_round y n.
Proof.
  intros H. unfold py_round.
  rewrite (round_half_even_comp (x * pow10 n) (y * pow10 n)); [reflexivity |].
  rewrite H. reflexivity.
Qed.

Lemma py_round_mono x y n : x <= y -> py_round x n <= py_round y n.
Proof.
  intros H. rewrite !py_round_value.
  pose proof (pow10_pos n) as Hp.
  assert (Hm : x * pow10 n <= y * pow10 n) by (apply Qmult_le_compat_r; lra).
  apply round_half_even_mono in Hm. rewrite Zle_Qle in Hm.
  apply Qmult_le_compat_r; [exact Hm |].
  apply Qlt_le_weak, Qinv_lt_0_compat, Hp.
Qed.

Lemma py_round_fixed x n : Spec.has_decimals n x -> py_round x n == x.
Proof.
  intros [k Hk]. rewrite py_round_value.
  rewrite (round_half_even_comp _ _ Hk), round_half_even_Z, <- Hk.
  pose proof (pow10_pos n). field. lra.
Qed.

End Rounding.

(** ** The parity formula *)

Section Parity.

Import Spec.

Lemma py_div_nonzero x y : ~ y == 0 -> py_div x y = Ok (x / y).
Proof.
  intros H. unfold py_div.
  destruct (Qeq_bool y 0) eqn:E; [| reflexivity].
  apply Qeq_bool_iff in E. contradiction.
Qed.


Lemma simulator_calculate_forward_rate spot d f days :
  FXDataSimulator.calculate_forward_rate spot d f days
  = FXDataFetcher.calculate_forward_rate spot d f days.
Proof. reflexivity. Qed.

Lemma denominator_scaled f days :
  365 + f * inject_Z days == 365 * denominator f days.
Proof. unfold denominator, year_fraction. field. Qed.

Lemma denominator_scaled_nonzero f days :
  ~ denominator f days == 0 -> ~ 365 + f * inject_Z days == 0.
Proof. rewrite denominator_scaled. lra. Qed.

Lemma calculate_forward_rate_nonzero spot d f days :
  ~ denominator f days == 0 ->
  FXDataFetcher.calculate_forward_rate spot d f days
  = Ok (cirp_forward spot d f days).
Proof.
  intros H. unfold FXDataFetcher.calculate_forward_rate.
  rewrite py_div_nonzero by exact H. simpl. unfold mret, result_ret. f_equal.
  apply py_round_comp. unfold parity, year_fraction.
  field. apply denominator_scaled_nonzero, H.
Qed.



Lemma year_fraction_nonneg days : (0 <= days)%Z -> 0 <= year_fraction days.
Proof.
  intros H. unfold year_fraction.
  apply Qle_shift_div_l; [reflexivity |].
  rewrite Qmult_0_l. change 0 with (inject_Z 0). rewrite <- Zle_Qle. exact H.
Qed.






Lemma denominator_pos f days :
  (0 <= days)%Z -> 0 <= f -> 0 < denominator f days.
Proof.
  intros Hd Hf. unfold denominator.
  pose proof (Qmult_le_0_compat _ _ Hf (year_fraction_nonneg _ Hd)). lra.
Qed.

End Parity.

(** ** [calculate_forward_rate] *)











(** ** Splitting a pair *)

Section Split.

Import Spec.

Lemma split_no_sep (sep : ascii) (s : string) :
  ~ In sep (list_ascii_of_string s) -> split sep s = [s].
Proof.
  induction s as [| c s IH]; simpl; intros H; [reflexivity |].
  destruct (Ascii.eqb_spec c sep) as [-> | Hne]; [exfalso; apply H; now left |].
  rewrite IH; [reflexivity |]. intros Hin. apply H. now right.
Qed.

Lemma split_first (sep : ascii) (s rest : string) :
  ~ In sep (list_ascii_of_string s) ->
  split sep (s +:+ String sep rest) = s :: split sep rest.
Proof.
  induction s as [| c s IH]; simpl; intros H.
  - rewrite Ascii.eqb_refl. reflexivity.
  - destruct (Ascii.eqb_spec c sep) as [-> | Hne]; [exfalso; apply H; now left |].
    rewrite IH; [reflexivity |]. intros Hin. apply H. now right.
Qed.

Lemma split_pair base quote :
  no_slash base -> no_slash quote -> split "/" (pair_of base quote) = [base; quote].
Proof.
  intros Hb Hq.
  change (pair_of base quote) with (base +:+ String "/"%char quote).
  rewrite split_first by exact Hb. rewrite split_no_sep by exact Hq. reflexivity.
Qed.

Lemma split_nonempty (sep : ascii) (s : string) : exists w ws, split sep s = w :: ws.
Proof.
  induction s as [| c s (w & ws & IH)]; simpl; [eauto |].
  destruct (Ascii.eqb c sep); [eauto |]. rewrite IH. eauto.
Qed.

End Split.

(** ** Building a curve *)

Section Build.

Import Spec.

Lemma py_getitem_Ok (d : gmap string Q) key v :
  py_getitem d key = Ok v <-> d !! key = Some v.
Proof.
  unfold py_getitem. destruct (d !! key); split; congruence.
Qed.

Lemma add_days_ordinal dt days s :
  add_days dt days = Ok s -> ordinal s = (ordinal dt + days)%Z.
Proof.
  unfold add_days. destruct (_ && _); [| discriminate]. intros [= <-]. reflexivity.
Qed.

(** Rendering a date reads its ordinal only. *)
Lemma strftime_ymd_ordinal dt1 dt2 :
  ordinal dt1 = ordinal dt2 -> strftime_ymd dt1 = strftime_ymd dt2.
Proof. unfold strftime_ymd. intros ->. reflexivity. Qed.

(** What one iteration of the loop appends. *)
Lemma tenor_row_Ok self pair base quote spot dt name days row :
  FXDataFetcher.tenor_row self pair base quote spot dt (name, days) = Ok row ->
  Pair row = pair /\ Tenor row = name /\ Days row = days
  /\ (exists s, add_days dt days = Ok s /\ Settlement_Date row = strftime_ymd s)
  /\ (days = 0%Z -> Forward_Rate row = spot /\ Forward_Points row = 0)
  /\ (days <> 0%Z ->
      exists domestic_rate foreign_rate,
        direction_rule (FXDataFetcher.interest_rates self) base quote
          domestic_rate foreign_rate
        /\ FXDataFetcher.calculate_forward_rate spot domestic_rate foreign_rate days
           = Ok (Forward_Rate row)
        /\ Forward_Points row = py_round ((Forward_Rate row - spot) * 10000) 2).
Proof.
  unfold FXDataFetcher.tenor_row. intros H.
  apply bind_Ok in H as ([fr fp] & Hrate & H).
  apply bind_Ok in H as (s & Hs & H).
  injection H as <-. simpl.
  split; [reflexivity |]. split; [reflexivity |]. split; [reflexivity |].
  split; [eauto |]. split.
  - intros ->. simpl in Hrate. injection Hrate as <- <-. split; reflexivity.
  - intros Hne. apply Z.eqb_neq in Hne. rewrite Hne in Hrate.
    apply bind_Ok in Hrate as ([d f] & Hrates & Hrate).
    apply bind_Ok in Hrate as (v & Hv & Hrate).
    injection Hrate as <- <-.
    exists d, f. split; [| split; [exact Hv | reflexivity]].
    unfold direction_rule.
    destruct (String.eqb_spec quote "USD") as [-> | Hq].
    + rewrite decide_True by reflexivity.
      apply bind_Ok in Hrates as (d' & Hd & Hrates).
      apply bind_Ok in Hrates as (f' & Hf & Hrates).
      injection Hrates as <- <-.
      split; apply py_getitem_Ok; assumption.
    + rewrite decide_False by exact Hq.
      apply bind_Ok in Hrates as (d' & Hd & Hrates).
      apply bind_Ok in Hrates as (f' & Hf & Hrates).
      injection Hrates as <- <-.
      split; apply py_getitem_Ok; assumption.
Qed.

(** The loop appends one row per item, the [i]-th one built with the
    [i]-th reading of the clock after [tick]. *)
Lemma build_loop_Ok self pair base quote spot now items acc tick curve :
  FXDataFetcher.build_loop self pair base quote spot now items acc tick = Ok curve ->
  exists rows,
    curve = acc ++ rows /\ length rows = length items
    /\ forall i row, rows !! i = Some row ->
         exists item, items !! i = Some item
           /\ FXDataFetcher.tenor_row self pair base quote spot (now (tick + i)%nat) item
              = Ok row.
Proof.
  revert acc tick curve.
  induction items as [| item items IH]; simpl; intros acc tick curve H.
  - injection H as <-. exists []. rewrite app_nil_r.
    split; [reflexivity | split; [reflexivity |]]. intros i row Hi. discriminate.
  - apply bind_Ok in H as (row0 & Hrow0 & H).
    apply IH in H as (rows & -> & Hlen & Hrows).
    exists (row0 :: rows). rewrite <- app_assoc. simpl.
    split; [reflexivity | split; [congruence |]].
    intros [| i] row Hi; simpl in Hi.
    + injection Hi as <-. exists item. rewrite Nat.add_0_r. split; [reflexivity | exact Hrow0].
    + apply Hrows in Hi as (it & Hit & Hi). exists it.
      replace (tick + S i)%nat with (S tick + i)%nat by lia. split; assumption.
Qed.

(** The loop reads the clock through the dates of its readings only. *)
Lemma tenor_row_clock self pair base quote spot dt1 dt2 item :
  ordinal dt1 = ordinal dt2 ->
  FXDataFetcher.tenor_row self pair base quote spot dt1 item
  = FXDataFetcher.tenor_row self pair base quote spot dt2 item.
Proof.
  intros E. destruct item as [name days]. unfold FXDataFetcher.tenor_row.
  destruct (_ : result (Q * Q)) as [[fr fp] | e]; [| reflexivity]. simpl.
  unfold add_days. rewrite E.
  destruct (_ && _); [| reflexivity]. simpl. reflexivity.
Qed.

Lemma build_loop_clock self pair base quote spot now1 now2 items acc tick :
  (forall i, (i < length items)%nat ->
     ordinal (now1 (tick + i)%nat) = ordinal (now2 (tick + i)%nat)) ->
  FXDataFetcher.build_loop self pair base quote spot now1 items acc tick
  = FXDataFetcher.build_loop self pair base quote spot now2 items acc tick.
Proof.
  revert acc tick. induction items as [| item items IH]; simpl; intros acc tick H;
    [reflexivity |].
  rewrite (tenor_row_clock self pair base quote spot (now1 tick) (now2 tick)).
  2:{ specialize (H 0%nat ltac:(lia)). rewrite Nat.add_0_r in H. exact H. }
  destruct (FXDataFetcher.tenor_row _ _ _ _ _ _ _) as [row | e]; [| reflexivity].
  simpl. apply IH. intros i Hi.
  replace (S tick + i)%nat with (tick + S i)%nat by lia. apply H. lia.
Qed.

(** The simulator's copy of the builder is the fetcher's. *)
Lemma simulator_build_loop self pair base quote spot now items acc tick :
  FXDataSimulator.build_loop self pair base quote spot now items acc tick
  = FXDataFetcher.build_loop (FXDataSimulator.as_fetcher self)
      pair base quote spot now items acc tick.
Proof.
  revert acc tick. induction items as [| item items IH]; simpl; intros acc tick;
    [reflexivity |].
  change (FXDataSimulator.tenor_row self pair base quote spot (now tick) item)
    with (FXDataFetcher.tenor_row (FXDataSimulator.as_fetcher self)
            pair base quote spot (now tick) item).
  destruct (FXDataFetcher.tenor_row _ _ _ _ _ _ _) as [row | e]; [| reflexivity].
  simpl. apply IH.
Qed.

Lemma simulator_build_forward_curve self pair spot now :
  FXDataSimulator.build_forward_curve self pair spot now
  = FXDataFetcher.build_forward_curve (FXDataSimulator.as_fetcher self) pair spot now.
Proof.
  unfold FXDataSimulator.build_forward_curve, FXDataFetcher.build_forward_curve.
  destruct (py_index _ 0) as [b | e]; [| reflexivity].
  destruct (py_index _ 1) as [q | e]; [| reflexivity].
  exact (simulator_build_loop self pair b q spot now FXDataSimulator.tenors [] 0%nat).
Qed.

End Build.

(** ** Built curves *)

Section Curves.

Import Spec.

Lemma build_forward_curve_rows self pair spot now curve :
  FXDataFetcher.build_forward_curve self pair spot now = Ok curve ->
  exists base quote,
    py_index (split "/" pair) 0 = Ok base
    /\ py_index (split "/" pair) 1 = Ok quote
    /\ length curve = length FXDataFetcher.tenors
    /\ forall i row, curve !! i = Some row ->
         exists name days,
           FXDataFetcher.tenors !! i = Some (name, days)
           /\ FXDataFetcher.tenor_row self pair base quote spot (now i) (name, days)
              = Ok row.
Proof.
  unfold FXDataFetcher.build_forward_curve. intros H.
  apply bind_Ok in H as (base & Hb & H).
  apply bind_Ok in H as (quote & Hq & H).
  apply build_loop_Ok in H as (rows & -> & Hlen & Hrows).
  exists base, quote. split; [exact Hb |]. split; [exact Hq |].
  split; [exact Hlen |].
  intros i row Hi. apply Hrows in Hi as ([name days] & Hit & Hi). eauto.
Qed.

Lemma built_fetcher rates pair spot now curve :
  built rates pair spot now curve ->
  FXDataFetcher.build_forward_curve
    {| FXDataFetcher.interest_rates := rates |} pair spot now = Ok curve.
Proof.
  intros [H | H]; [exact H |].
  rewrite simulator_build_forward_curve in H. exact H.
Qed.

(** Label and day count of every item of [tenors] determine each other at
    the Spot point. *)
Lemma tenors_spot i name days :
  FXDataFetcher.tenors !! i = Some (name, days) ->
  (name = "Spot" <-> days = 0%Z) /\ (0 <= days)%Z.
Proof.
  do 8 (destruct i as [| i]; [intros [= <- <-]; split; [split |]; (discriminate || reflexivity) |]).
  discriminate.
Qed.

Lemma built_well_formed rates pair spot now curve :
  built rates pair spot now curve -> well_formed_curve curve.
Proof.
  intros H. apply built_fetcher, build_forward_curve_rows in H
    as (base & quote & _ & _ & Hlen & Hrows).
  unfold well_formed_curve. apply list_eq. intros i.
  rewrite list_lookup_fmap.
  change tenor_labels with (fst <$> FXDataFetcher.tenors).
  rewrite list_lookup_fmap.
  destruct (curve !! i) as [row |] eqn:Hi; simpl.
  - apply Hrows in Hi as (name & days & Hit & Hrow). rewrite Hit. simpl.
    apply tenor_row_Ok in Hrow as (_ & -> & _). reflexivity.
  - apply lookup_ge_None in Hi. rewrite Hlen in Hi.
    apply lookup_ge_None in Hi. rewrite Hi. reflexivity.
Qed.

(** A call returns when the pair is BASE/QUOTE, the table has the two rates
    of the direction rule, the foreign rate is not negative, and the clock
    leaves a year before the last date that [datetime] can hold. *)
Lemma tenor_row_returns self pair base quote spot dt name days d f :
  direction_rule (FXDataFetcher.interest_rates self) base quote d f ->
  ~ denominator f days == 0 ->
  (1 <= ordinal dt + days <= MAXORDINAL)%Z ->
  is_Ok (FXDataFetcher.tenor_row self pair base quote spot dt (name, days)).
Proof.
  intros Hrule Hden Hdate. unfold FXDataFetcher.tenor_row.
  assert (Hadd : exists s, add_days dt days = Ok s).
  { unfold add_days.
    destruct (Z.leb_spec 1 (ordinal dt + days)); [| lia].
    destruct (Z.leb_spec (ordinal dt + days) MAXORDINAL); [| lia].
    simpl. eauto. }
  destruct Hadd as [s Hs].
  destruct (days =? 0)%Z.
  - cbn [mbind result_bind mret result_ret]. rewrite Hs. eexists. reflexivity.
  - unfold direction_rule in Hrule.
    destruct (String.eqb_spec quote "USD") as [-> | Hq].
    + rewrite decide_True in Hrule by reflexivity. destruct Hrule as [Hd Hf].
      apply py_getitem_Ok in Hd, Hf. rewrite Hd, Hf.
      cbn [mbind result_bind mret result_ret].
      rewrite calculate_forward_rate_nonzero by exact Hden.
      cbn [mbind result_bind mret result_ret]. rewrite Hs. eexists. reflexivity.
    + rewrite decide_False in Hrule by exact Hq. destruct Hrule as [Hd Hf].
      apply py_getitem_Ok in Hd, Hf. rewrite Hd, Hf.
      cbn [mbind result_bind mret result_ret].
      rewrite calculate_forward_rate_nonzero by exact Hden.
      cbn [mbind result_bind mret result_ret]. rewrite Hs. eexists. reflexivity.
Qed.

Lemma build_loop_returns self pair base quote spot now items acc tick :
  (forall i item, items !! i = Some item ->
     is_Ok (FXDataFetcher.tenor_row self pair base quote spot
              (now (tick + i)%nat) item)) ->
  is_Ok (FXDataFetcher.build_loop self pair base quote spot now items acc tick).
Proof.
  revert acc tick. induction items as [| item items IH]; intros acc tick H; simpl.
  - eexists. reflexivity.
  - destruct (H 0%nat item eq_refl) as [row Hrow].
    rewrite Nat.add_0_r in Hrow. rewrite Hrow.
    cbn [mbind result_bind]. apply IH. intros i it Hi.
    replace (S tick + i)%nat with (tick + S i)%nat by lia. apply H. exact Hi.
Qed.

Lemma build_forward_curve_returns self base quote spot now d f :
  no_slash base -> no_slash quote ->
  direction_rule (FXDataFetcher.interest_rates self) base quote d f ->
  0 <= f ->
  (forall k, (k < length FXDataFetcher.tenors)%nat ->
     (1 <= ordinal (now k) <= MAXORDINAL - 365)%Z) ->
  is_Ok (FXDataFetcher.build_forward_curve self (pair_of base quote) spot now).
Proof.
  intros Hb Hq Hrule Hf Hclock. unfold FXDataFetcher.build_forward_curve.
  rewrite split_pair by assumption.
  cbn [py_index lookup list_lookup mbind result_bind].
  apply build_loop_returns. intros i [name days] Hi.
  assert (Hlt : (i < length FXDataFetcher.tenors)%nat)
    by (apply lookup_lt_is_Some; eauto).
  apply tenors_spot in Hi as Hdays. destruct Hdays as [_ Hdays].
  assert (Hle : (days <= 365)%Z).
  { revert Hi. clear.
    do 8 (destruct i as [| i]; [intros [= <- <-]; discriminate |]). discriminate. }
  apply (tenor_row_returns _ _ _ _ _ _ _ _ d f); [exact Hrule | |].
  - pose proof (denominator_pos f days Hdays Hf). lra.
  - specialize (Hclock i Hlt). simpl. lia.
Qed.

(** The analyzer of a built curve: it is over a well-formed curve and
    keeps the pair the curve was built for. *)
Lemma built_analyzer rates pair spot now curve :
  built rates pair spot now curve ->
  well_formed_curve curve
  /\ HedgingAnalyzer.init curve
     = Ok {| HedgingAnalyzer.forward_curve := curve; HedgingAnalyzer.pair := pair |}.
Proof.
  intros H. pose proof (built_well_formed _ _ _ _ _ H) as Hwf.
  split; [exact Hwf |].
  apply built_fetcher, build_forward_curve_rows in H
    as (base & quote & _ & _ & Hlen & Hrows).
  destruct curve as [| row rest]; [discriminate |].
  destruct (Hrows 0%nat row eq_refl) as (name & days & _ & Hrow).
  apply tenor_row_Ok in Hrow as (Hpair & _).
  unfold HedgingAnalyzer.init. simpl. rewrite Hpair. reflexivity.
Qed.

End Curves.

(** ** [build_forward_curve] *)

(** The USD/CAD curve of the simulator's table at 1.4320, built on
    2024-12-31. *)
Example usd_cad_curve :
  FXDataFetcher.build_forward_curve FXDataFetcher.init "USD/CAD" 1.4320 usd_cad_clock
  = Ok usd_cad_rows.
Proof. vm_compute. reflexivity. Qed.

Lemma usd_cad_built :
  Spec.built (FXDataFetcher.interest_rates FXDataFetcher.init)
    (Spec.pair_of "USD" "CAD") 1.4320 usd_cad_clock usd_cad_rows.
Proof. left. vm_compute. reflexivity. Defined.

Lemma usd_cad_init : HedgingAnalyzer.init usd_cad_rows = Ok usd_cad_analyzer.
Proof. reflexivity. Qed.

(** C4.  In every curve that [build_forward_curve] returns, of the fetcher
    or of the simulator, for any pair, spot rate and rate table, the first
    row is a Spot row, and every Spot row has [Days = 0], the input spot
    rate itself as forward rate and forward points 0. *)
Theorem build_forward_curve_spot_row
    (rates : gmap string Q) (pair : string) (spot_rate : Q) (now : clock)
    (curve : list CurveRow) :
  Spec.built rates pair spot_rate now curve ->
  (exists row rest, curve = row :: rest /\ Tenor row = "Spot")
  /\ forall row, row ∈ curve -> Tenor row = "Spot" ->
       Days row = 0%Z /\ Forward_Rate row = spot_rate /\ Forward_Points row = 0.
Proof.
  intros H. pose proof (built_well_formed _ _ _ _ _ H) as Hwf.
  apply built_fetcher, build_forward_curve_rows in H
    as (base & quote & _ & _ & Hlen & Hrows).
  split.
  - destruct curve as [| row rest]; [discriminate |].
    exists row, rest. split; [reflexivity |]. injection Hwf as Ht _. exact Ht.
  - intros row Hin Hspot.
    apply list_elem_of_lookup in Hin as [i Hi].
    apply Hrows in Hi as (name & days & Hit & Hrow).
    apply tenor_row_Ok in Hrow as (_ & Hname & Hdays & _ & Hzero & _).
    apply tenors_spot in Hit as [Hiff _].
    assert (days = 0%Z) as -> by (apply Hiff; congruence).
    destruct (Hzero eq_refl) as [-> ->]. auto.
Qed.

Lemma build_forward_curve_spot_row_witness :
  exists row rest,
    FXDataFetcher.build_forward_curve FXDataFetcher.init "USD/CAD" 1.4320 usd_cad_clock
    = Ok (row :: rest)
    /\ Tenor row = "Spot" /\ Days row = 0%Z /\ Forward_Rate row = 1.4320
    /\ Forward_Points row = 0.
Proof.
  destruct (build_forward_curve_spot_row _ _ _ _ _ usd_cad_built) as [_ H].
  eexists _, _. split; [exact usd_cad_curve |].
  split; [reflexivity |]. apply H; [left | reflexivity].
Defined.

Lemma direction_rule_functional rates base quote d1 f1 d2 f2 :
  Spec.direction_rule rates base quote d1 f1 ->
  Spec.direction_rule rates base quote d2 f2 ->
  d1 = d2 /\ f1 = f2.
Proof.
  unfold Spec.direction_rule. destruct (decide (quote = "USD"));
    intros [H1 H2] [H3 H4]; split; congruence.
Qed.

(** C1.  For a pair BASE/QUOTE, every curve that [build_forward_curve]
    returns, of the fetcher or of the simulator, is built with one
    assignment of rates: if QUOTE is "USD" the domestic rate is the table's
    USD rate and the foreign rate the table's BASE rate, otherwise the
    domestic rate is the table's QUOTE rate and the foreign rate the
    table's USD rate; and the forward rate of every row other than Spot is
    [calculate_forward_rate] of the spot, these two rates and the row's
    days. *)
Theorem build_forward_curve_direction
    (rates : gmap string Q) (base quote : string) (spot_rate : Q) (now : clock)
    (curve : list CurveRow) :
  Spec.no_slash base -> Spec.no_slash quote ->
  Spec.built rates (Spec.pair_of base quote) spot_rate now curve ->
  exists domestic_rate foreign_rate,
    (quote = "USD" ->
     rates !! "USD" = Some domestic_rate /\ rates !! base = Some foreign_rate)
    /\ (quote <> "USD" ->
        rates !! quote = Some domestic_rate /\ rates !! "USD" = Some foreign_rate)
    /\ forall row, row ∈ curve -> Tenor row <> "Spot" ->
         FXDataFetcher.calculate_forward_rate spot_rate domestic_rate foreign_rate
           (Days row) = Ok (Forward_Rate row)
         /\ FXDataSimulator.calculate_forward_rate spot_rate domestic_rate foreign_rate
              (Days row) = Ok (Forward_Rate row).
Proof.
  intros Hb Hq H.
  apply built_fetcher, build_forward_curve_rows in H
    as (base' & quote' & Hbase & Hquote & Hlen & Hrows).
  rewrite split_pair in Hbase, Hquote by assumption.
  injection Hbase as <-. injection Hquote as <-.
  (* the rates are those read for the 1W row *)
  destruct (curve !! 1%nat) as [row1 |] eqn:H1.
  2:{ apply lookup_ge_None in H1. rewrite Hlen in H1. simpl in H1. lia. }
  destruct (Hrows _ _ H1) as (name1 & days1 & Hit1 & Hrow1).
  injection Hit1 as <- <-.
  apply tenor_row_Ok in Hrow1 as (_ & _ & _ & _ & _ & Hnz1).
  destruct (Hnz1 ltac:(discriminate)) as (d & f & Hrule & _).
  exists d, f.
  split; [| split].
  - intros ->. unfold Spec.direction_rule in Hrule.
    rewrite decide_True in Hrule by reflexivity. exact Hrule.
  - intros Hne. unfold Spec.direction_rule in Hrule.
    rewrite decide_False in Hrule by exact Hne. exact Hrule.
  - intros row Hin Hns.
    apply list_elem_of_lookup in Hin as [i Hi].
    apply Hrows in Hi as (name & days & Hit & Hrow).
    apply tenor_row_Ok in Hrow as (_ & Hname & Hdays & _ & _ & Hnz).
    apply tenors_spot in Hit as [Hiff _].
    destruct (Hnz ltac:(intros Hz; apply Hns; rewrite Hname; apply Hiff, Hz))
      as (d' & f' & Hrule' & Hcalc & _).
    destruct (direction_rule_functional _ _ _ _ _ _ _ Hrule Hrule') as [-> ->].
    rewrite Hdays. split; exact Hcalc.
Qed.

Lemma build_forward_curve_direction_witness :
  exists domestic_rate foreign_rate,
    domestic_rate = 0.0375 /\ foreign_rate = 0.0450
    /\ FXDataFetcher.calculate_forward_rate 1.4320 domestic_rate foreign_rate 180
       = Ok 1.4268.
Proof.
  destruct (build_forward_curve_direction
              (FXDataFetcher.interest_rates FXDataFetcher.init) "USD" "CAD"
              1.4320 usd_cad_clock _
              ltac:(vm_compute; intuition discriminate)
              ltac:(vm_compute; intuition discriminate)
              usd_cad_built)
    as (d & f & _ & Hne & Hrows).
  exists d, f.
  destruct (Hne ltac:(discriminate)) as [Hd Hf].
  vm_compute in Hd, Hf. injection Hd as <-. injection Hf as <-.
  split; [reflexivity |]. split; [reflexivity |].
  refine (proj1 (Hrows {| Pair := "USD/CAD"; Tenor := "6M"; Days := 180;
                          Forward_Rate := 1.4268; Forward_Points := -52.00;
                          Settlement_Date := "2025-06-29" |} _ _)).
  - do 5 right. left.
  - discriminate.
Defined.

(** C7, as stated, fails: the settlement dates come from [datetime.now()],
    read anew for every row, and not from an argument.  Two calls with the
    same pair, spot rate and rate table that both start on 2024-12-31
    return different curves when one of them runs across midnight, and in
    that curve the 1W row settles on 2025-01-08, which is not the start
    date plus seven days. *)
Lemma build_forward_curve_clock_counterexample :
  ordinal (midnight_clock 0%nat) = ordinal (usd_cad_clock 0%nat)
  /\ FXDataFetcher.build_forward_curve FXDataFetcher.init "USD/CAD" 1.4320 midnight_clock
     <> FXDataFetcher.build_forward_curve FXDataFetcher.init "USD/CAD" 1.4320 usd_cad_clock
  /\ exists curve row,
       FXDataFetcher.build_forward_curve FXDataFetcher.init "USD/CAD" 1.4320
         midnight_clock = Ok curve
       /\ curve !! 1%nat = Some row
       /\ Days row = 7%Z
       /\ Settlement_Date row = "2025-01-08"
       /\ Spec.date_string (ordinal (midnight_clock 0%nat) + Days row) = "2025-01-07".
Proof.
  split; [reflexivity |]. split.
  - vm_compute. discriminate.
  - eexists _, _. split; [vm_compute; reflexivity |].
    split; [reflexivity |]. split; [reflexivity |]. split; reflexivity.
Qed.

(** C7, amended.  [build_forward_curve] takes the as-of date from the wall
    clock, read once per row.  When all the readings of a call fall on one
    calendar date, the result is determined by the pair, the spot rate,
    the rate table and that date: two such calls return the same result,
    and every row of a returned curve settles on that date plus the row's
    days. *)
Theorem build_forward_curve_settlement
    (self : FXDataFetcher.t) (pair : string) (spot_rate : Q) (now now' : clock)
    (as_of_date : Z) :
  Spec.clock_on now as_of_date -> Spec.clock_on now' as_of_date ->
  FXDataFetcher.build_forward_curve self pair spot_rate now
  = FXDataFetcher.build_forward_curve self pair spot_rate now'
  /\ forall curve,
       FXDataFetcher.build_forward_curve self pair spot_rate now = Ok curve ->
       forall row, row ∈ curve ->
         Settlement_Date row = Spec.date_string (as_of_date + Days row).
Proof.
  intros Hnow Hnow'. split.
  - unfold FXDataFetcher.build_forward_curve.
    destruct (py_index _ 0) as [b | e]; [| reflexivity].
    destruct (py_index _ 1) as [q | e]; [| reflexivity].
    apply (build_loop_clock self pair b q spot_rate now now'
             FXDataFetcher.tenors [] 0%nat).
    intros i Hi. simpl. rewrite Hnow, Hnow' by exact Hi. reflexivity.
  - intros curve H row Hin.
    apply build_forward_curve_rows in H as (base & quote & _ & _ & Hlen & Hrows).
    apply list_elem_of_lookup in Hin as [i Hi].
    assert (Hlt : (i < length FXDataFetcher.tenors)%nat)
      by (rewrite <- Hlen; apply lookup_lt_is_Some; eauto).
    apply Hrows in Hi as (name & days & Hit & Hrow).
    apply tenor_row_Ok in Hrow as (_ & _ & Hdays & (s & Hs & Hdate) & _).
    rewrite Hdate, Hdays. apply strftime_ymd_ordinal.
    rewrite (add_days_ordinal _ _ _ Hs), (Hnow i Hlt). reflexivity.
Qed.

Lemma build_forward_curve_settlement_witness :
  FXDataFetcher.build_forward_curve FXDataFetcher.init "USD/CAD" 1.4320 usd_cad_clock
  = FXDataFetcher.build_forward_curve FXDataFetcher.init "USD/CAD" 1.4320 noon_clock
  /\ forall curve,
       FXDataFetcher.build_forward_curve FXDataFetcher.init "USD/CAD" 1.4320
         usd_cad_clock = Ok curve ->
       forall row, row ∈ curve ->
         Settlement_Date row = Spec.date_string (739251 + Days row).
Proof.
  apply (build_forward_curve_settlement FXDataFetcher.init "USD/CAD" 1.4320
           usd_cad_clock noon_clock 739251).
  - intros k _. reflexivity.
  - intros k _. reflexivity.
Defined.

(** ** Looking up a tenor *)

Section Lookup.

Import Spec.

Lemma rows_with_tenor_nil df tenor :
  HedgingAnalyzer.rows_with_tenor df tenor = [] <-> tenor ∉ (Tenor <$> df).
Proof.
  unfold HedgingAnalyzer.rows_with_tenor.
  induction df as [| row df IH]; simpl.
  - split; [intros _ H; inversion H | reflexivity].
  - rewrite filter_cons. rewrite not_elem_of_cons. destruct (decide (Tenor row = tenor)).
    + split; [discriminate | intros [Hne _]; congruence].
    + rewrite IH. split; [intros H; split; [congruence | exact H] | intros [_ H]; exact H].
Qed.

(** In a frame whose labels are pairwise distinct, the rows selected for a
    label are the one row that carries it. *)
Lemma rows_with_tenor_unique df row :
  NoDup (Tenor <$> df) -> row ∈ df ->
  HedgingAnalyzer.rows_with_tenor df (Tenor row) = [row].
Proof.
  unfold HedgingAnalyzer.rows_with_tenor.
  induction df as [| r df IH]; simpl; intros Hnd Hin; [inversion Hin |].
  apply NoDup_cons in Hnd as [Hr Hnd].
  apply elem_of_cons in Hin as [-> | Hin].
  - rewrite filter_cons_True by reflexivity. f_equal.
    apply rows_with_tenor_nil, Hr.
  - rewrite filter_cons_False; [apply IH; assumption |].
    intros E. apply Hr. rewrite E. apply list_elem_of_fmap. eauto.
Qed.

Lemma tenor_labels_NoDup : NoDup tenor_labels.
Proof. apply (bool_decide_unpack _). vm_compute. exact I. Qed.

Lemma calculate_hedge_cost_found self notional tenor hedge_ratio row rows srow srows :
  HedgingAnalyzer.rows_with_tenor (HedgingAnalyzer.forward_curve self) tenor
  = row :: rows ->
  HedgingAnalyzer.rows_with_tenor (HedgingAnalyzer.forward_curve self) "Spot"
  = srow :: srows ->
  HedgingAnalyzer.calculate_hedge_cost self notional tenor hedge_ratio
  = Ok {| hi_Pair := HedgingAnalyzer.pair self;
          hi_Notional := notional;
          hi_Hedge_Ratio := hedge_ratio;
          hi_Hedged_Amount := notional * hedge_ratio;
          hi_Unhedged_Amount := notional * (1 - hedge_ratio);
          hi_Tenor := tenor;
          hi_Settlement_Date := Settlement_Date row;
          hi_Spot_Rate := Forward_Rate srow;
          hi_Forward_Rate := Forward_Rate row;
          hi_Forward_Points := Forward_Points row;
          hi_Premium_Discount_pct :=
            np_round (np_mul (np_div (Forward_Rate row - Forward_Rate srow)
                                (Forward_Rate srow)) 100) 4;
          hi_Locked_In_Rate := Forward_Rate row |}.
Proof.
  intros Ht Hs. unfold HedgingAnalyzer.calculate_hedge_cost.
  rewrite Ht, Hs. reflexivity.
Qed.

Lemma calculate_hedge_cost_not_found self notional tenor hedge_ratio :
  HedgingAnalyzer.rows_with_tenor (HedgingAnalyzer.forward_curve self) tenor = [] ->
  HedgingAnalyzer.calculate_hedge_cost self notional tenor hedge_ratio
  = Err (HedgingAnalyzer.TenorNotFound tenor).
Proof.
  intros Ht. unfold HedgingAnalyzer.calculate_hedge_cost. rewrite Ht. reflexivity.
Qed.

(** In a well-formed curve every fixed label selects exactly one row. *)
Lemma well_formed_row curve tenor :
  well_formed_curve curve -> tenor ∈ tenor_labels ->
  exists row, row ∈ curve /\ Tenor row = tenor
              /\ HedgingAnalyzer.rows_with_tenor curve tenor = [row].
Proof.
  intros Hwf Hin. unfold well_formed_curve in Hwf.
  rewrite <- Hwf in Hin. apply list_elem_of_fmap in Hin as (row & -> & Hin).
  exists row. split; [exact Hin |]. split; [reflexivity |].
  apply rows_with_tenor_unique; [| exact Hin].
  rewrite Hwf. apply tenor_labels_NoDup.
Qed.

Lemma spot_label : "Spot" ∈ tenor_labels.
Proof. left. Qed.

End Lookup.

(** ** [calculate_hedge_cost] *)

(** C5.  On an analyzer over a well-formed curve, for every notional, hedge
    ratio and tenor string, [calculate_hedge_cost] raises the [ValueError]
    "Tenor ... not found in forward curve" if and only if the tenor is not
    one of the eight fixed labels, and returns a [HedgeInfo] if and only if
    it is one of them; there is no other outcome. *)
Theorem calculate_hedge_cost_raises_iff
    (self : HedgingAnalyzer.t) (notional : Q) (tenor : string) (hedge_ratio : Q) :
  Spec.well_formed_curve (HedgingAnalyzer.forward_curve self) ->
  (HedgingAnalyzer.calculate_hedge_cost self notional tenor hedge_ratio
   = Err (HedgingAnalyzer.TenorNotFound tenor)
   <-> tenor ∉ Spec.tenor_labels)
  /\ (is_Ok (HedgingAnalyzer.calculate_hedge_cost self notional tenor hedge_ratio)
      <-> tenor ∈ Spec.tenor_labels).
Proof.
  intros Hwf.
  destruct (decide (tenor ∈ Spec.tenor_labels)) as [Hin | Hout].
  - destruct (well_formed_row _ _ Hwf Hin) as (row & _ & _ & Hrow).
    destruct (well_formed_row _ _ Hwf spot_label) as (srow & _ & _ & Hsrow).
    rewrite (calculate_hedge_cost_found _ _ _ _ _ _ _ _ Hrow Hsrow).
    split; split; try discriminate; try contradiction; eauto.
    intros _. eexists. reflexivity.
  - assert (Hnil : HedgingAnalyzer.rows_with_tenor
                     (HedgingAnalyzer.forward_curve self) tenor = []).
    { apply rows_with_tenor_nil. unfold Spec.well_formed_curve in Hwf.
      rewrite Hwf. exact Hout. }
    rewrite (calculate_hedge_cost_not_found _ _ _ _ Hnil).
    split; split; try contradiction; auto.
    intros [info Hinfo]. discriminate.
Qed.

Lemma usd_cad_well_formed :
  Spec.well_formed_curve (HedgingAnalyzer.forward_curve usd_cad_analyzer).
Proof. reflexivity. Defined.

Lemma calculate_hedge_cost_raises_iff_witness :
  HedgingAnalyzer.calculate_hedge_cost usd_cad_analyzer 5000000 "7M" 0.75
  = Err (ValueError "Tenor 7M not found in forward curve")
  /\ is_Ok (HedgingAnalyzer.calculate_hedge_cost usd_cad_analyzer 5000000 "6M" 0.75).
Proof.
  split.
  - apply (proj1 (calculate_hedge_cost_raises_iff usd_cad_analyzer 5000000 "7M" 0.75
                    usd_cad_well_formed)).
    apply (bool_decide_unpack _). vm_compute. exact I.
  - apply (proj2 (calculate_hedge_cost_raises_iff usd_cad_analyzer 5000000 "6M" 0.75
                    usd_cad_well_formed)).
    apply (bool_decide_unpack _). vm_compute. exact I.
Defined.

(** The hedge of the specification's scenario: 75% of 5,000,000 for six
    months. *)
Example usd_cad_hedge_cost :
  HedgingAnalyzer.calculate_hedge_cost usd_cad_analyzer 5000000 "6M" 0.75
  = Ok {| hi_Pair := "USD/CAD";
          hi_Notional := 5000000;
          hi_Hedge_Ratio := 0.75;
          hi_Hedged_Amount := 5000000 * 0.75;
          hi_Unhedged_Amount := 5000000 * (1 - 0.75);
          hi_Tenor := "6M";
          hi_Settlement_Date := "2025-06-29";
          hi_Spot_Rate := 1.4320;
          hi_Forward_Rate := 1.4268;
          hi_Forward_Points := -52.00;
          hi_Premium_Discount_pct := Fin (-0.3631);
          hi_Locked_In_Rate := 1.4268 |}.
Proof. reflexivity. Qed.

(** ** [scenario_analysis] *)

Section Scenarios.


End Scenarios.



(** ** Casing *)

Section Casing.

Import Spec.

Lemma is_upper_range c :
  is_upper c = true <-> (65 <= nat_of_ascii c <= 90)%nat.
Proof.
  unfold is_upper. rewrite andb_true_iff, !Nat.leb_le. reflexivity.
Qed.

Lemma lower_ascii_upper c :
  is_upper c = true -> nat_of_ascii (lower_ascii c) = (nat_of_ascii c + 32)%nat.
Proof.
  intros H. unfold lower_ascii. rewrite H.
  apply is_upper_range in H. apply nat_ascii_embedding. lia.
Qed.

Lemma nat_of_ascii_inj c d : nat_of_ascii c = nat_of_ascii d -> c = d.
Proof.
  intros H. rewrite <- (ascii_nat_embedding c), <- (ascii_nat_embedding d), H.
  reflexivity.
Qed.

(** For a letter [d] that [lower] leaves alone, the characters that
    [lower] sends to [d] are [d] in either case. *)
Lemma lower_ascii_same_letter c d :
  is_upper d = false -> (lower_ascii c = d <-> same_letter c d).
Proof.
  intros Hd. split.
  - intros <-. unfold same_letter. destruct (is_upper c) eqn:Hc.
    + right. left. split; [reflexivity |]. apply lower_ascii_upper, Hc.
    + left. unfold lower_ascii. rewrite Hc. reflexivity.
  - intros [-> | [[Hc Hn] | [Hu _]]].
    + unfold lower_ascii. rewrite Hd. reflexivity.
    + apply nat_of_ascii_inj. rewrite lower_ascii_upper by exact Hc. congruence.
    + congruence.
Qed.

Lemma lower_casing word s :
  no_upper word = true -> (lower s = word <-> casing_of word s).
Proof.
  revert s. induction word as [| d word IH]; intros [| c s] Hw; simpl;
    try (split; [discriminate | contradiction]).
  - split; auto.
  - simpl in Hw. apply andb_true_iff in Hw as [Hd Hw].
    apply negb_true_iff in Hd.
    rewrite <- (IH s Hw), <- (lower_ascii_same_letter c d Hd).
    split; [intros [= -> ->]; auto | intros [-> ->]; reflexivity].
Qed.

Lemma lower_eqb_casing word s :
  no_upper word = true ->
  (String.eqb (lower s) word = true <-> casing_of word s).
Proof.
  intros Hw. rewrite String.eqb_eq. apply lower_casing, Hw.
Qed.

End Casing.

(** ** [generate_hedge_recommendation] *)

Section Recommendation.

Import Spec.

Lemma split_pair_two base quote :
  exists a b rest, split "/" (pair_of base quote) = a :: b :: rest.
Proof.
  change (pair_of base quote) with (base +:+ String "/"%char quote).
  induction base as [| c base (a & b & rest & IH)]; simpl.
  - destruct (split_nonempty "/" quote) as (w & ws & ->). eauto.
  - destruct (Ascii.eqb c "/").
    + rewrite IH. eauto.
    + rewrite IH. eauto.
Qed.

(** The recommendation once the two lookups and the splitting of the pair
    are known to succeed. *)
Lemma generate_hedge_recommendation_Ok self notional tenor market_view
    row srow a b rest :
  HedgingAnalyzer.rows_with_tenor (HedgingAnalyzer.forward_curve self) tenor = [row] ->
  HedgingAnalyzer.rows_with_tenor (HedgingAnalyzer.forward_curve self) "Spot" = [srow] ->
  split "/" (HedgingAnalyzer.pair self) = a :: b :: rest ->
  exists r,
    HedgingAnalyzer.generate_hedge_recommendation self notional tenor market_view = Ok r
    /\ (String.eqb (lower market_view) "bullish" = true ->
        hi_Hedge_Ratio (rec_Hedge_Details r) = 0.50
        /\ rec_Recommendation r = "50% Hedge Ratio")
    /\ (String.eqb (lower market_view) "bullish" = false ->
        String.eqb (lower market_view) "bearish" = true ->
        hi_Hedge_Ratio (rec_Hedge_Details r) = 1.00
        /\ rec_Recommendation r = "100% Hedge Ratio")
    /\ (String.eqb (lower market_view) "bullish" = false ->
        String.eqb (lower market_view) "bearish" = false ->
        hi_Hedge_Ratio (rec_Hedge_Details r) = 0.75
        /\ rec_Recommendation r = "75% Hedge Ratio"
        /\ rec_Rationale r = HedgingAnalyzer.neutral_rationale).
Proof.
  intros Hrow Hsrow Hsplit.
  unfold HedgingAnalyzer.generate_hedge_recommendation.
  rewrite (calculate_hedge_cost_found _ _ _ _ _ _ _ _ Hrow Hsrow).
  rewrite Hsplit.
  destruct (String.eqb (lower market_view) "bullish");
    [| destruct (String.eqb (lower market_view) "bearish")];
    cbn [mbind result_bind mret result_ret py_index lookup list_lookup];
    rewrite (calculate_hedge_cost_found _ _ _ _ _ _ _ _ Hrow Hsrow);
    cbn [mbind result_bind mret result_ret];
    eexists; (split; [reflexivity |]);
    cbn [rec_Hedge_Details rec_Recommendation rec_Rationale hi_Hedge_Ratio];
    repeat split; intros; try discriminate; reflexivity.
Qed.

End Recommendation.

(** C6.  On an analyzer over a well-formed curve of a pair BASE/QUOTE, for
    every notional, every tenor among the fixed labels and every
    [market_view], [generate_hedge_recommendation] returns a
    recommendation and raises nothing; its hedge ratio is 0.50 for every
    casing of "bullish", 1.00 for every casing of "bearish", and 0.75 with
    the neutral rationale for every other string. *)
Theorem generate_hedge_recommendation_policy
    (self : HedgingAnalyzer.t) (base quote : string) (notional : Q)
    (tenor market_view : string) :
  Spec.well_formed_curve (HedgingAnalyzer.forward_curve self) ->
  HedgingAnalyzer.pair self = Spec.pair_of base quote ->
  tenor ∈ Spec.tenor_labels ->
  exists r,
    HedgingAnalyzer.generate_hedge_recommendation self notional tenor market_view = Ok r
    /\ (Spec.casing_of "bullish" market_view ->
        hi_Hedge_Ratio (rec_Hedge_Details r) == 0.50
        /\ rec_Recommendation r = "50% Hedge Ratio")
    /\ (Spec.casing_of "bearish" market_view ->
        hi_Hedge_Ratio (rec_Hedge_Details r) == 1.00
        /\ rec_Recommendation r = "100% Hedge Ratio")
    /\ (~ Spec.casing_of "bullish" market_view ->
        ~ Spec.casing_of "bearish" market_view ->
        hi_Hedge_Ratio (rec_Hedge_Details r) == 0.75
        /\ rec_Recommendation r = "75% Hedge Ratio"
        /\ rec_Rationale r = HedgingAnalyzer.neutral_rationale).
Proof.
  intros Hwf Hpair Hin.
  destruct (well_formed_row _ _ Hwf Hin) as (row & _ & _ & Hrow).
  destruct (well_formed_row _ _ Hwf spot_label) as (srow & _ & _ & Hsrow).
  destruct (split_pair_two base quote) as (a & b & rest & Hsplit).
  rewrite <- Hpair in Hsplit.
  destruct (generate_hedge_recommendation_Ok self notional tenor market_view
              _ _ _ _ _ Hrow Hsrow Hsplit) as (r & Hr & Hbull & Hbear & Hneutral).
  exists r. split; [exact Hr |].
  pose proof (lower_eqb_casing "bullish" market_view eq_refl) as Cbull.
  pose proof (lower_eqb_casing "bearish" market_view eq_refl) as Cbear.
  split; [| split].
  - intros H. apply Cbull in H. destruct (Hbull H) as [-> ->].
    split; reflexivity.
  - intros H. apply Cbear in H.
    destruct (String.eqb (lower market_view) "bullish") eqn:E.
    + apply String.eqb_eq in E. apply String.eqb_eq in H. congruence.
    + destruct (Hbear eq_refl H) as [-> ->]. split; reflexivity.
  - intros Nbull Nbear.
    destruct (String.eqb (lower market_view) "bullish") eqn:E1;
      [exfalso; apply Nbull, Cbull; reflexivity |].
    destruct (String.eqb (lower market_view) "bearish") eqn:E2;
      [exfalso; apply Nbear, Cbear; reflexivity |].
    destruct (Hneutral eq_refl eq_refl) as (-> & -> & ->).
    repeat split; reflexivity.
Qed.

Lemma generate_hedge_recommendation_policy_witness :
  exists r,
    HedgingAnalyzer.generate_hedge_recommendation usd_cad_analyzer 5000000 "6M" "BeArIsH"
    = Ok r
    /\ hi_Hedge_Ratio (rec_Hedge_Details r) == 1.00
    /\ rec_Recommendation r = "100% Hedge Ratio".
Proof.
  destruct (generate_hedge_recommendation_policy usd_cad_analyzer "USD" "CAD"
              5000000 "6M" "BeArIsH" usd_cad_well_formed eq_refl)
    as (r & Hr & _ & Hbear & _).
  - apply (bool_decide_unpack _). vm_compute. exact I.
  - exists r. split; [exact Hr |]. apply Hbear.
    apply (proj1 (lower_eqb_casing "bearish" "BeArIsH" eq_refl)). reflexivity.
Defined.

(** The recommendations of the policy table on the sample curve. *)
Example usd_cad_recommendation_bullish :
  HedgingAnalyzer.generate_hedge_recommendation usd_cad_analyzer 5000000 "6M" "Bullish"
  = Ok {| rec_Recommendation := "50% Hedge Ratio";
          rec_Rationale :=
            "With a bullish view on USD, consider a 50% hedge to maintain some upside exposure while protecting against adverse moves.";
          rec_Hedge_Details :=
            {| hi_Pair := "USD/CAD";
               hi_Notional := 5000000;
               hi_Hedge_Ratio := 0.50;
               hi_Hedged_Amount := 5000000 * 0.50;
               hi_Unhedged_Amount := 5000000 * (1 - 0.50);
               hi_Tenor := "6M";
               hi_Settlement_Date := "2025-06-29";
               hi_Spot_Rate := 1.4320;
               hi_Forward_Rate := 1.4268;
               hi_Forward_Points := -52.00;
               hi_Premium_Discount_pct := Fin (-0.3631);
               hi_Locked_In_Rate := 1.4268 |};
          rec_Forward_Premium_Discount := "-0.36%";
          rec_Action :=
            "Enter FX Forward to sell 2,500,000 USD vs CAD at 1.4268 for 6M settlement" |}.
Proof. reflexivity. Qed.

Example usd_cad_recommendation_unknown :
  exists r,
    HedgingAnalyzer.generate_hedge_recommendation usd_cad_analyzer 5000000 "6M"
      "unknownvalue" = Ok r
    /\ rec_Recommendation r = "75% Hedge Ratio"
    /\ rec_Rationale r = HedgingAnalyzer.neutral_rationale
    /\ rec_Action r
       = "Enter FX Forward to sell 3,750,000 USD vs CAD at 1.4268 for 6M settlement".
Proof. eexists. repeat split. Qed.

(** * Further properties of the code *)

(** ** Rounding error *)

Section RoundingError.

Import Spec.

Lemma round_half_even_error x :
  - (1 # 2) <= inject_Z (round_half_even x) - x <= 1 # 2.
Proof.
  unfold round_half_even.
  pose proof (Qfloor_le x) as Hlo. pose proof (Qlt_floor x) as Hhi.
  rewrite inject_Z_plus in Hhi. change (inject_Z 1) with 1 in Hhi.
  destruct (Qcompare_spec (x - inject_Z (Qfloor x)) (1 # 2)) as [H | H | H].
  - destruct (Z.even (Qfloor x));
      [| rewrite inject_Z_plus; change (inject_Z 1) with 1]; lra.
  - lra.
  - rewrite inject_Z_plus. change (inject_Z 1) with 1. lra.
Qed.

Lemma py_round_error x n :
  Qabs (py_round x n - x) <= (1 # 2) / pow10 n.
Proof.
  pose proof (pow10_pos n) as Hp.
  pose proof (round_half_even_error (x * pow10 n)) as [Hlo Hhi].
  assert (E : py_round x n - x
              == (inject_Z (round_half_even (x * pow10 n)) - x * pow10 n) / pow10 n).
  { rewrite py_round_value. field. lra. }
  rewrite E. apply Qabs_Qle_condition. split.
  - apply Qle_shift_div_l; [exact Hp |].
    assert (E2 : - ((1 # 2) / pow10 n) * pow10 n == - (1 # 2)) by (field; lra).
    rewrite E2. exact Hlo.
  - apply Qle_shift_div_r; [exact Hp |].
    assert (E2 : (1 # 2) / pow10 n * pow10 n == 1 # 2) by (field; lra).
    rewrite E2. exact Hhi.
Qed.

Lemma py_round_decimals x n : has_decimals n (py_round x n).
Proof.
  exists (round_half_even (x * pow10 n)).
  pose proof (pow10_pos n). rewrite py_round_value. field. lra.
Qed.

End RoundingError.



(** ** The term structure of the parity formula *)

Section TermStructure.

Import Spec.








End TermStructure.



(** ** Outcomes of [build_forward_curve] *)

Section BuildOutcomes.

Import Spec Props.

Lemma py_getitem_Err (d : gmap string Q) key e :
  py_getitem d key = Err e <-> d !! key = None /\ e = KeyError key.
Proof.
  unfold py_getitem. destruct (d !! key); split.
  - discriminate.
  - intros [[=] _].
  - intros [= <-]. auto.
  - intros [_ ->]. reflexivity.
Qed.

Lemma bind_Err {A B} (f : A -> result B) (m : result A) (e : exn) :
  m ≫= f = Err e <-> m = Err e \/ exists a, m = Ok a /\ f a = Err e.
Proof.
  destruct m as [a | e']; simpl.
  - split; [intros H; right; eauto | intros [[=] | (a' & [= <-] & H)]; exact H].
  - split; [intros [= ->]; left; reflexivity | intros [[= ->] | (a' & [=] & _)]; reflexivity].
Qed.

Lemma calculate_forward_rate_Err spot d f days e :
  FXDataFetcher.calculate_forward_rate spot d f days = Err e -> e = ZeroDivisionError.
Proof.
  unfold FXDataFetcher.calculate_forward_rate, py_div.
  destruct (Qeq_bool _ 0); simpl; [intros [= <-]; reflexivity | discriminate].
Qed.

Lemma add_days_Err dt days e : add_days dt days = Err e -> e = OverflowError.
Proof.
  unfold add_days. destruct (_ && _); [discriminate | intros [= <-]; reflexivity].
Qed.

Lemma add_days_valid dt : valid_date dt -> add_days dt 0 = Ok dt.
Proof.
  intros [H1 H2]. unfold add_days. rewrite Z.add_0_r.
  destruct (Z.leb_spec 1 (ordinal dt)); [| lia].
  destruct (Z.leb_spec (ordinal dt) MAXORDINAL); [| lia].
  simpl. destruct dt. reflexivity.
Qed.

(** The iteration of a tenor of zero days. *)
Lemma tenor_row_spot self pair base quote spot dt name :
  valid_date dt ->
  FXDataFetcher.tenor_row self pair base quote spot dt (name, 0%Z)
  = Ok {| Pair := pair; Tenor := name; Days := 0; Forward_Rate := spot;
          Forward_Points := 0; Settlement_Date := strftime_ymd dt |}.
Proof.
  intros Hdate. unfold FXDataFetcher.tenor_row.
  cbn [Z.eqb mbind result_bind mret result_ret].
  rewrite (add_days_valid _ Hdate). reflexivity.
Qed.

(** The rates that one iteration reads, or the key it misses. *)
Lemma direction_lookup rates base quote :
  match first_missing rates base quote with
  | Some key =>
      (if String.eqb quote "USD" then
         domestic_rate ← py_getitem rates "USD";
         foreign_rate ← py_getitem rates base;
         mret (domestic_rate, foreign_rate)
       else
         domestic_rate ← py_getitem rates quote;
         foreign_rate ← py_getitem rates "USD";
         mret (domestic_rate, foreign_rate)) = Err (KeyError key)
  | None =>
      exists d f,
        direction_rule rates base quote d f
        /\ (if String.eqb quote "USD" then
              domestic_rate ← py_getitem rates "USD";
              foreign_rate ← py_getitem rates base;
              mret (domestic_rate, foreign_rate)
            else
              domestic_rate ← py_getitem rates quote;
              foreign_rate ← py_getitem rates "USD";
              mret (domestic_rate, foreign_rate)) = Ok (d, f)
  end.
Proof.
  unfold first_missing, direction_rule, py_getitem.
  destruct (String.eqb_spec quote "USD") as [-> | Hq].
  - rewrite !decide_True by reflexivity.
    destruct (rates !! "USD") as [d |]; [| reflexivity].
    destruct (rates !! base) as [f |]; [| reflexivity].
    exists d, f. split; [split |]; reflexivity.
  - rewrite !decide_False by exact Hq.
    destruct (rates !! quote) as [d |]; [| reflexivity].
    destruct (rates !! "USD") as [f |]; [| reflexivity].
    exists d, f. rewrite decide_False by exact Hq. split; [split |]; reflexivity.
Qed.

(** The errors of one iteration. *)
Lemma tenor_row_Err self pair base quote spot dt name days e :
  FXDataFetcher.tenor_row self pair base quote spot dt (name, days) = Err e ->
  (exists key, e = KeyError key
               /\ first_missing (FXDataFetcher.interest_rates self) base quote = Some key)
  \/ e = ZeroDivisionError \/ e = OverflowError.
Proof.
  unfold FXDataFetcher.tenor_row. intros H.
  apply bind_Err in H as [H | ([fr fp] & _ & H)].
  - destruct (days =? 0)%Z; [discriminate |].
    apply bind_Err in H as [H | ([d f] & _ & H)].
    + left.
      pose proof (direction_lookup (FXDataFetcher.interest_rates self) base quote) as L.
      destruct (first_missing _ base quote) as [key |].
      * rewrite L in H. injection H as <-. eauto.
      * destruct L as (d & f & _ & L). rewrite L in H. discriminate.
    + apply bind_Err in H as [H | (v & _ & H)]; [| cbv zeta in H; discriminate].
      right. left. eapply calculate_forward_rate_Err, H.
  - apply bind_Err in H as [H | (s & _ & H)]; [| cbv zeta in H; discriminate].
    right. right. eapply add_days_Err, H.
Qed.

(** The loop fails with the error of the first iteration that fails. *)
Lemma build_loop_Err self pair base quote spot now items acc tick e :
  FXDataFetcher.build_loop self pair base quote spot now items acc tick = Err e ->
  exists i item,
    items !! i = Some item
    /\ FXDataFetcher.tenor_row self pair base quote spot (now (tick + i)%nat) item
       = Err e.
Proof.
  revert acc tick. induction items as [| item items IH]; simpl; intros acc tick H;
    [discriminate |].
  apply bind_Err in H as [H | (row & _ & H)].
  - exists 0%nat, item. rewrite Nat.add_0_r. auto.
  - apply IH in H as (i & it & Hi & H). exists (S i), it.
    replace (tick + S i)%nat with (S tick + i)%nat by lia. auto.
Qed.

Lemma split_has_slash s :
  has_slash s <-> exists a b rest, split "/" s = a :: b :: rest.
Proof.
  unfold has_slash. induction s as [| c s IH]; simpl.
  - split; [contradiction | intros (a & b & rest & [=])].
  - destruct (Ascii.eqb_spec c "/") as [-> | Hne].
    + split; [| auto].
      intros _. destruct (split_nonempty "/" s) as (w & ws & ->). eauto.
    + destruct (split_nonempty "/" s) as (w & ws & Hs). rewrite Hs in *.
      split.
      * intros [Hc | Hin]; [congruence |].
        apply IH in Hin as (a & b & rest & [= -> ->]). eauto.
      * intros (a & b & rest & [= <- ->]). right. apply IH. eauto.
Qed.

End BuildOutcomes.

(** X3.  Every curve that [build_forward_curve] returns has exactly eight
    rows, labelled Spot, 1W, 1M, 2M, 3M, 6M, 9M, 1Y in this order, with the
    day counts 0, 7, 30, 60, 90, 180, 270, 365, and every row carries the
    pair string that was passed in. *)
Theorem build_forward_curve_shape
    (self : FXDataFetcher.t) (pair : string) (spot_rate : Q) (now : clock)
    (curve : list CurveRow) :
  FXDataFetcher.build_forward_curve self pair spot_rate now = Ok curve ->
  Tenor <$> curve = Spec.tenor_labels
  /\ Days <$> curve = Props.tenor_days
  /\ forall row, row ∈ curve -> Pair row = pair.
Proof.
  intros H.
  apply build_forward_curve_rows in H as (base & quote & _ & _ & Hlen & Hrows).
  assert (Hcol : forall (A : Type) (f : CurveRow -> A) (g : string * Z -> A),
             (forall row name days dt,
                FXDataFetcher.tenor_row self pair base quote spot_rate dt (name, days)
                = Ok row -> f row = g (name, days)) ->
             f <$> curve = g <$> FXDataFetcher.tenors).
  { intros A f g Hfg. apply list_eq. intros i. rewrite !list_lookup_fmap.
    destruct (curve !! i) as [row |] eqn:Hi; simpl.
    - apply Hrows in Hi as (name & days & Hit & Hrow). rewrite Hit. simpl.
      f_equal. eapply Hfg, Hrow.
    - apply lookup_ge_None in Hi. rewrite Hlen in Hi.
      apply lookup_ge_None in Hi. rewrite Hi. reflexivity. }
  split; [| split].
  - apply (Hcol _ Tenor fst). intros row name days dt Hrow.
    apply tenor_row_Ok in Hrow as (_ & -> & _). reflexivity.
  - apply (Hcol _ Days snd). intros row name days dt Hrow.
    apply tenor_row_Ok in Hrow as (_ & _ & -> & _). reflexivity.
  - intros row Hin. apply list_elem_of_lookup in Hin as [i Hi].
    apply Hrows in Hi as (name & days & _ & Hrow).
    apply tenor_row_Ok in Hrow as (-> & _). reflexivity.
Qed.

Lemma build_forward_curve_shape_witness :
  Tenor <$> usd_cad_rows = Spec.tenor_labels
  /\ Days <$> usd_cad_rows = Props.tenor_days
  /\ forall row, row ∈ usd_cad_rows -> Pair row = "USD/CAD".
Proof.
  apply (build_forward_curve_shape FXDataFetcher.init "USD/CAD" 1.4320 usd_cad_clock).
  vm_compute. reflexivity.
Defined.

(** X4.  [build_forward_curve] raises [IndexError] exactly when the pair
    string contains no "/": whatever the spot rate, the rate table and the
    clock, a pair without the separator fails at [pair.split('/')[1]], and
    a pair with it never fails with this error. *)
Theorem build_forward_curve_index_error
    (self : FXDataFetcher.t) (pair : string) (spot_rate : Q) (now : clock) :
  FXDataFetcher.build_forward_curve self pair spot_rate now = Err IndexError
  <-> ~ Props.has_slash pair.
Proof.
  unfold FXDataFetcher.build_forward_curve. split.
  - intros H Hslash.
    apply split_has_slash in Hslash as (a & b & rest & Hsplit).
    rewrite Hsplit in H. cbn [py_index lookup list_lookup mbind result_bind] in H.
    apply build_loop_Err in H as (i & [name days] & _ & H).
    apply tenor_row_Err in H as [(key & [=] & _) | [[=] | [=]]].
  - intros Hno. rewrite (split_no_sep "/" pair Hno). reflexivity.
Qed.

Example build_forward_curve_no_separator :
  FXDataFetcher.build_forward_curve FXDataFetcher.init "USDCAD" 1.4320 usd_cad_clock
  = Err IndexError.
Proof. reflexivity. Qed.

(** X5.  For a pair BASE/QUOTE and a call that starts on a date that
    [datetime] holds, [build_forward_curve] raises [KeyError] exactly when
    the rate table lacks a code that the direction rule looks up, and the
    error names the first such code: for QUOTE = "USD" the codes looked up
    are "USD", then BASE; otherwise QUOTE, then "USD". *)
Theorem build_forward_curve_key_error
    (self : FXDataFetcher.t) (base quote : string) (spot_rate : Q) (now : clock)
    (key : string) :
  Spec.no_slash base -> Spec.no_slash quote -> Props.valid_date (now 0%nat) ->
  FXDataFetcher.build_forward_curve self (Spec.pair_of base quote) spot_rate now
  = Err (KeyError key)
  <-> Props.first_missing (FXDataFetcher.interest_rates self) base quote = Some key.
Proof.
  intros Hb Hq Hdate. unfold FXDataFetcher.build_forward_curve.
  rewrite split_pair by assumption.
  cbn [py_index lookup list_lookup mbind result_bind].
  split.
  - intros H. apply build_loop_Err in H as (i & [name days] & _ & H).
    apply tenor_row_Err in H as [(key' & [= ->] & H) | [[=] | [=]]]. exact H.
  - intros Hmiss.
    pose proof (direction_lookup (FXDataFetcher.interest_rates self) base quote) as L.
    rewrite Hmiss in L.
    change FXDataFetcher.tenors
      with (("Spot", 0%Z) :: ("1W", 7%Z) :: skipn 2 FXDataFetcher.tenors).
    cbn [FXDataFetcher.build_loop].
    rewrite tenor_row_spot by exact Hdate.
    cbn [mbind result_bind].
    unfold FXDataFetcher.tenor_row. cbn [Z.eqb]. rewrite L. reflexivity.
Qed.

Lemma build_forward_curve_key_error_witness :
  FXDataFetcher.build_forward_curve FXDataFetcher.init (Spec.pair_of "USD" "SEK")
    1.4320 usd_cad_clock
  = Err (KeyError "SEK").
Proof.
  apply (build_forward_curve_key_error FXDataFetcher.init "USD" "SEK" 1.4320
           usd_cad_clock "SEK").
  - vm_compute. intuition discriminate.
  - vm_compute. intuition discriminate.
  - split; discriminate.
  - reflexivity.
Defined.

(** ** What a curve depends on *)

Section CurveDependencies.

Import Spec Props.

(** For a quote currency other than USD one iteration reads neither the
    base currency nor, but for the [Pair] column, the pair string. *)
Lemma tenor_row_base self pair1 pair2 base1 base2 quote spot dt item :
  quote <> "USD" ->
  match FXDataFetcher.tenor_row self pair1 base1 quote spot dt item,
        FXDataFetcher.tenor_row self pair2 base2 quote spot dt item with
  | Ok row1, Ok row2 => columns row1 = columns row2
  | Err e1, Err e2 => e1 = e2
  | _, _ => False
  end.
Proof.
  intros Hq. destruct item as [name days]. unfold FXDataFetcher.tenor_row.
  apply String.eqb_neq in Hq. rewrite Hq.
  destruct (if (days =? 0)%Z then _ else _) as [[fr fp] | e]; [| reflexivity].
  cbn [mbind result_bind].
  destruct (add_days dt days) as [s | e]; reflexivity.
Qed.

Lemma build_loop_base self pair1 pair2 base1 base2 quote spot now items acc1 acc2 tick :
  quote <> "USD" -> columns <$> acc1 = columns <$> acc2 ->
  without_pair (FXDataFetcher.build_loop self pair1 base1 quote spot now items acc1 tick)
  = without_pair (FXDataFetcher.build_loop self pair2 base2 quote spot now items acc2 tick).
Proof.
  intros Hq. revert acc1 acc2 tick.
  induction items as [| item items IH]; intros acc1 acc2 tick Hacc; simpl.
  - rewrite Hacc. reflexivity.
  - pose proof (tenor_row_base self pair1 pair2 base1 base2 quote spot (now tick)
                  item Hq) as H.
    destruct (FXDataFetcher.tenor_row self pair1 _ _ _ _ _) as [row1 | e1];
      destruct (FXDataFetcher.tenor_row self pair2 _ _ _ _ _) as [row2 | e2];
      try contradiction.
    + cbn [mbind result_bind]. apply IH. rewrite !fmap_app. simpl. congruence.
    + simpl. congruence.
Qed.







End CurveDependencies.

(** X6.  For a quote currency other than USD, [build_forward_curve] never
    reads the base currency: the pairs BASE1/QUOTE and BASE2/QUOTE give the
    same outcome, the same error or curves that agree in every column but
    [Pair], also when a base currency has no entry in the rate table. *)
Theorem build_forward_curve_ignores_base
    (self : FXDataFetcher.t) (base1 base2 quote : string) (spot_rate : Q)
    (now : clock) :
  Spec.no_slash base1 -> Spec.no_slash base2 -> Spec.no_slash quote ->
  quote <> "USD" ->
  Props.without_pair
    (FXDataFetcher.build_forward_curve self (Spec.pair_of base1 quote) spot_rate now)
  = Props.without_pair
      (FXDataFetcher.build_forward_curve self (Spec.pair_of base2 quote) spot_rate now).
Proof.
  intros Hb1 Hb2 Hq Hne. unfold FXDataFetcher.build_forward_curve.
  rewrite !split_pair by assumption.
  cbn [py_index lookup list_lookup mbind result_bind].
  apply build_loop_base; [exact Hne | reflexivity].
Qed.

Lemma build_forward_curve_ignores_base_witness :
  Props.without_pair
    (FXDataFetcher.build_forward_curve FXDataFetcher.init (Spec.pair_of "SEK" "CAD")
       1.4320 usd_cad_clock)
  = Ok (Props.columns <$> usd_cad_rows).
Proof.
  rewrite (build_forward_curve_ignores_base FXDataFetcher.init "SEK" "USD" "CAD"
             1.4320 usd_cad_clock).
  - vm_compute. reflexivity.
  - vm_compute. intuition discriminate.
  - vm_compute. intuition discriminate.
  - vm_compute. intuition discriminate.
  - discriminate.
Defined.






(** X9.  The simulator's copies of [calculate_forward_rate] and
    [build_forward_curve] behave as the fetcher's: on the same rate table,
    pair, spot rate and clock they return the same value or raise the same
    error, and the two classes start from the same rate table. *)
Theorem simulator_agrees_with_fetcher
    (rates : gmap string Q) (pair : string) (spot_rate domestic_rate foreign_rate : Q)
    (days : Z) (now : clock) :
  FXDataSimulator.calculate_forward_rate spot_rate domestic_rate foreign_rate days
  = FXDataFetcher.calculate_forward_rate spot_rate domestic_rate foreign_rate days
  /\ FXDataSimulator.build_forward_curve
       {| FXDataSimulator.interest_rates := rates |} pair spot_rate now
     = FXDataFetcher.build_forward_curve
         {| FXDataFetcher.interest_rates := rates |} pair spot_rate now
  /\ FXDataSimulator.interest_rates FXDataSimulator.init
     = FXDataFetcher.interest_rates FXDataFetcher.init.
Proof.
  split; [reflexivity |]. split; [| reflexivity].
  apply (simulator_build_forward_curve {| FXDataSimulator.interest_rates := rates |}).
Qed.

(** ** Outcomes of [calculate_hedge_cost] on any frame *)

Section HedgeCostOutcomes.

Import Spec Props.

Lemma rows_with_tenor_cons df tenor :
  tenor ∈ (Tenor <$> df) ->
  exists row rows, HedgingAnalyzer.rows_with_tenor df tenor = row :: rows
                   /\ row ∈ df /\ Tenor row = tenor.
Proof.
  intros Hin.
  destruct (HedgingAnalyzer.rows_with_tenor df tenor) as [| row rows] eqn:E.
  - apply rows_with_tenor_nil in E. contradiction.
  - exists row, rows. split; [reflexivity |].
    assert (Hrow : row ∈ HedgingAnalyzer.rows_with_tenor df tenor)
      by (rewrite E; left).
    apply list_elem_of_filter in Hrow as [Ht Hrow]. auto.
Qed.

Lemma calculate_hedge_cost_no_spot self notional tenor hedge_ratio row rows :
  HedgingAnalyzer.rows_with_tenor (HedgingAnalyzer.forward_curve self) tenor
  = row :: rows ->
  HedgingAnalyzer.rows_with_tenor (HedgingAnalyzer.forward_curve self) "Spot" = [] ->
  HedgingAnalyzer.calculate_hedge_cost self notional tenor hedge_ratio = Err IndexError.
Proof.
  intros Ht Hs. unfold HedgingAnalyzer.calculate_hedge_cost.
  rewrite Ht, Hs. reflexivity.
Qed.

(** What a returned [HedgeInfo] is made of. *)
Lemma calculate_hedge_cost_inv self notional tenor hedge_ratio info :
  HedgingAnalyzer.calculate_hedge_cost self notional tenor hedge_ratio = Ok info ->
  exists row rows srow srows,
    HedgingAnalyzer.rows_with_tenor (HedgingAnalyzer.forward_curve self) tenor
    = row :: rows
    /\ HedgingAnalyzer.rows_with_tenor (HedgingAnalyzer.forward_curve self) "Spot"
       = srow :: srows
    /\ info = {| hi_Pair := HedgingAnalyzer.pair self;
                 hi_Notional := notional;
                 hi_Hedge_Ratio := hedge_ratio;
                 hi_Hedged_Amount := notional * hedge_ratio;
                 hi_Unhedged_Amount := notional * (1 - hedge_ratio);
                 hi_Tenor := tenor;
                 hi_Settlement_Date := Settlement_Date row;
                 hi_Spot_Rate := Forward_Rate srow;
                 hi_Forward_Rate := Forward_Rate row;
                 hi_Forward_Points := Forward_Points row;
                 hi_Premium_Discount_pct :=
                   np_round (np_mul (np_div (Forward_Rate row - Forward_Rate srow)
                                       (Forward_Rate srow)) 100) 4;
                 hi_Locked_In_Rate := Forward_Rate row |}.
Proof.
  intros H.
  destruct (HedgingAnalyzer.rows_with_tenor (HedgingAnalyzer.forward_curve self) tenor)
    as [| row rows] eqn:Ht.
  - rewrite calculate_hedge_cost_not_found in H by exact Ht. discriminate.
  - destruct (HedgingAnalyzer.rows_with_tenor (HedgingAnalyzer.forward_curve self) "Spot")
      as [| srow srows] eqn:Hs.
    + rewrite (calculate_hedge_cost_no_spot _ _ _ _ _ _ Ht Hs) in H. discriminate.
    + rewrite (calculate_hedge_cost_found _ _ _ _ _ _ _ _ Ht Hs) in H.
      injection H as <-. exists row, rows, srow, srows. auto.
Qed.

(** The outcome does not depend on the notional or on the hedge ratio. *)
Lemma calculate_hedge_cost_outcome self notional1 ratio1 notional2 ratio2 tenor :
  match HedgingAnalyzer.calculate_hedge_cost self notional1 tenor ratio1,
        HedgingAnalyzer.calculate_hedge_cost self notional2 tenor ratio2 with
  | Ok info1, Ok info2 =>
      hi_Spot_Rate info1 = hi_Spot_Rate info2
      /\ hi_Forward_Rate info1 = hi_Forward_Rate info2
  | Err e1, Err e2 => e1 = e2
  | _, _ => False
  end.
Proof.
  unfold HedgingAnalyzer.calculate_hedge_cost.
  destruct (HedgingAnalyzer.rows_with_tenor _ tenor) as [| row rows]; [reflexivity |].
  destruct (HedgingAnalyzer.rows_with_tenor _ "Spot") as [| srow srows];
    [reflexivity |].
  simpl. auto.
Qed.

End HedgeCostOutcomes.

(** X10.  [calculate_hedge_cost] on any frame, well-formed or not: it
    raises the "Tenor ... not found" [ValueError] when no row carries the
    tenor; it raises [IndexError] when a row carries the tenor and no row
    is labelled "Spot"; and it returns when both rows exist. *)
Theorem calculate_hedge_cost_outcomes
    (self : HedgingAnalyzer.t) (notional : Q) (tenor : string) (hedge_ratio : Q) :
  (tenor ∉ (Tenor <$> HedgingAnalyzer.forward_curve self) ->
   HedgingAnalyzer.calculate_hedge_cost self notional tenor hedge_ratio
   = Err (HedgingAnalyzer.TenorNotFound tenor))
  /\ (tenor ∈ (Tenor <$> HedgingAnalyzer.forward_curve self) ->
      "Spot" ∉ (Tenor <$> HedgingAnalyzer.forward_curve self) ->
      HedgingAnalyzer.calculate_hedge_cost self notional tenor hedge_ratio
      = Err IndexError)
  /\ (tenor ∈ (Tenor <$> HedgingAnalyzer.forward_curve self) ->
      "Spot" ∈ (Tenor <$> HedgingAnalyzer.forward_curve self) ->
      is_Ok (HedgingAnalyzer.calculate_hedge_cost self notional tenor hedge_ratio)).
Proof.
  split; [| split].
  - intros Hout. apply calculate_hedge_cost_not_found, rows_with_tenor_nil, Hout.
  - intros Hin Hspot.
    apply rows_with_tenor_cons in Hin as (row & rows & Hrow & _).
    apply rows_with_tenor_nil in Hspot.
    apply (calculate_hedge_cost_no_spot _ _ _ _ _ _ Hrow Hspot).
  - intros Hin Hspot.
    apply rows_with_tenor_cons in Hin as (row & rows & Hrow & _).
    apply rows_with_tenor_cons in Hspot as (srow & srows & Hsrow & _).
    eexists. apply (calculate_hedge_cost_found _ _ _ _ _ _ _ _ Hrow Hsrow).
Qed.

Lemma calculate_hedge_cost_outcomes_witness :
  HedgingAnalyzer.calculate_hedge_cost
    {| HedgingAnalyzer.forward_curve := [usd_cad_1M; usd_cad_6M];
       HedgingAnalyzer.pair := "USD/CAD" |} 5000000 "6M" 0.75
  = Err IndexError.
Proof.
  apply (proj1 (proj2 (calculate_hedge_cost_outcomes
                         {| HedgingAnalyzer.forward_curve := [usd_cad_1M; usd_cad_6M];
                            HedgingAnalyzer.pair := "USD/CAD" |} 5000000 "6M" 0.75))).
  - right. left.
  - apply (bool_decide_unpack _). vm_compute. exact I.
Defined.



(** ** The premium and a zero spot *)

Section Premium.

Lemma np_div_nonzero x y : ~ y == 0 -> np_div x y = Fin (x / y).
Proof.
  intros H. unfold np_div. destruct (Qeq_bool y 0) eqn:E; [| reflexivity].
  apply Qeq_bool_iff in E. contradiction.
Qed.

Lemma np_div_zero x y :
  y == 0 -> np_div x y = NaN \/ exists s, np_div x y = Inf s.
Proof.
  intros H. unfold np_div. apply Qeq_bool_iff in H. rewrite H.
  destruct (Qcompare x 0); eauto.
Qed.

Lemma py_round_zero n : py_round 0 n == 0.
Proof. apply py_round_fixed. exists 0%Z. ring. Qed.

End Premium.

(** X12.  Whenever [calculate_hedge_cost] returns: for a positive spot
    rate the premium/discount percentage is a finite number whose sign
    follows the forward rate, not negative when the forward rate is at
    least the spot and not positive when it is at most the spot; for a spot
    rate of zero the division does not raise, and the percentage is nan or
    an infinity. *)
Theorem calculate_hedge_cost_premium
    (self : HedgingAnalyzer.t) (notional : Q) (tenor : string) (hedge_ratio : Q)
    (info : HedgeInfo) :
  HedgingAnalyzer.calculate_hedge_cost self notional tenor hedge_ratio = Ok info ->
  (0 < hi_Spot_Rate info ->
   exists p, hi_Premium_Discount_pct info = Fin p
             /\ (hi_Spot_Rate info <= hi_Forward_Rate info -> 0 <= p)
             /\ (hi_Forward_Rate info <= hi_Spot_Rate info -> p <= 0))
  /\ (hi_Spot_Rate info == 0 ->
      hi_Premium_Discount_pct info = NaN
      \/ exists s, hi_Premium_Discount_pct info = Inf s).
Proof.
  intros H. apply calculate_hedge_cost_inv in H
    as (row & rows & srow & srows & _ & _ & ->). simpl.
  set (fwd := Forward_Rate row). set (spot := Forward_Rate srow).
  split.
  - intros Hpos. rewrite np_div_nonzero by lra. simpl.
    eexists. split; [reflexivity |].
    assert (Hinv : 0 < / spot) by (apply Qinv_lt_0_compat, Hpos).
    split; intros Hle.
    + rewrite <- (py_round_zero 4). apply py_round_mono.
      assert (0 <= (fwd - spot) * / spot) by (apply Qmult_le_0_compat; lra).
      unfold Qdiv. lra.
    + rewrite <- (py_round_zero 4). apply py_round_mono.
      assert (0 <= (spot - fwd) * / spot) by (apply Qmult_le_0_compat; lra).
      unfold Qdiv. lra.
  - intros Hz. destruct (np_div_zero (fwd - spot) spot Hz) as [-> | [s ->]].
    + left. reflexivity.
    + right. simpl. eauto.
Qed.

Lemma calculate_hedge_cost_premium_witness :
  exists p, Fin (-0.3631) = Fin p /\ p <= 0.
Proof.
  destruct (proj1 (calculate_hedge_cost_premium usd_cad_analyzer 5000000 "6M" 0.75
                     _ usd_cad_hedge_cost) eq_refl) as (p & Hp & _ & Hneg).
  exists p. split; [exact Hp |]. apply Hneg. discriminate.
Defined.

(** A frame whose rates are all zero: every division by the spot is a
    division by zero. *)
Example zero_spot_premium :
  exists info,
    HedgingAnalyzer.calculate_hedge_cost
      {| HedgingAnalyzer.forward_curve :=
           [ {| Pair := "USD/CAD"; Tenor := "Spot"; Days := 0; Forward_Rate := 0;
                Forward_Points := 0; Settlement_Date := "2024-12-31" |};
             {| Pair := "USD/CAD"; Tenor := "1W"; Days := 7; Forward_Rate := 0.0000;
                Forward_Points := 0.00; Settlement_Date := "2025-01-07" |} ];
         HedgingAnalyzer.pair := "USD/CAD" |} 5000000 "1W" 0.75 = Ok info
    /\ hi_Premium_Discount_pct info = NaN.
Proof. eexists. split; reflexivity. Qed.

(** ** Rows of [scenario_analysis] on any frame *)

Section ScenarioRows.

Import Spec Props.


Lemma scenario_analysis_Err self notional tenor hedge_ratio spot_scenarios e :
  HedgingAnalyzer.scenario_analysis self notional tenor hedge_ratio spot_scenarios
  = Err e <->
  HedgingAnalyzer.calculate_hedge_cost self notional tenor hedge_ratio = Err e.
Proof.
  unfold HedgingAnalyzer.scenario_analysis.
  destruct (HedgingAnalyzer.calculate_hedge_cost _ _ _ _) as [info | e']; simpl.
  - split; discriminate.
  - split; intros [= ->]; reflexivity.
Qed.



End ScenarioRows.






(** X15.  When [calculate_hedge_cost] returns: leaving [spot_scenarios]
    out runs the five scenarios 90%, 95%, 100%, 105% and 110% of the
    current spot, in this order, and the middle row is the scenario of an
    unchanged spot, with an unhedged P&L of 0 and, for a spot other than 0,
    a spot change of 0; an empty list of scenarios is not replaced by the
    defaults and gives no rows. *)
Theorem scenario_analysis_defaults
    (self : HedgingAnalyzer.t) (notional : Q) (tenor : string) (hedge_ratio : Q)
    (info : HedgeInfo) :
  HedgingAnalyzer.calculate_hedge_cost self notional tenor hedge_ratio = Ok info ->
  HedgingAnalyzer.scenario_analysis self notional tenor hedge_ratio None
  = HedgingAnalyzer.scenario_analysis self notional tenor hedge_ratio
      (Some [hi_Spot_Rate info * 0.90; hi_Spot_Rate info * 0.95; hi_Spot_Rate info;
             hi_Spot_Rate info * 1.05; hi_Spot_Rate info * 1.10])
  /\ (exists r1 r2 middle r4 r5,
        HedgingAnalyzer.scenario_analysis self notional tenor hedge_ratio None
        = Ok [r1; r2; middle; r4; r5]
        /\ Future_Spot middle = py_round (hi_Spot_Rate info) 4
        /\ Unhedged_PnL middle == 0
        /\ (~ hi_Spot_Rate info == 0 -> Spot_Change_pct middle = Fin 0.00))
  /\ HedgingAnalyzer.scenario_analysis self notional tenor hedge_ratio (Some [])
     = Ok [].
Proof.
  intros H. unfold HedgingAnalyzer.scenario_analysis. rewrite H.
  cbn [mbind result_bind mret result_ret].
  split; [reflexivity |]. split; [| reflexivity].
  unfold HedgingAnalyzer.default_scenarios. cbn [fold_left app].
  eexists _, _, _, _, _. split; [reflexivity |].
  unfold HedgingAnalyzer.scenario_row. cbn [Future_Spot Unhedged_PnL Spot_Change_pct].
  split; [reflexivity |]. split.
  - rewrite (py_round_comp _ 0 2); [apply py_round_zero | ring].
  - intros Hnz. rewrite np_div_nonzero by exact Hnz.
    cbn [np_mul np_round]. f_equal.
    rewrite (py_round_comp _ 0 2); [reflexivity |]. field. exact Hnz.
Qed.

Lemma scenario_analysis_defaults_witness :
  HedgingAnalyzer.scenario_analysis usd_cad_analyzer 5000000 "6M" 0.75 None
  = HedgingAnalyzer.scenario_analysis usd_cad_analyzer 5000000 "6M" 0.75
      (Some [1.4320 * 0.90; 1.4320 * 0.95; 1.4320; 1.4320 * 1.05; 1.4320 * 1.10]).
Proof.
  exact (proj1 (scenario_analysis_defaults usd_cad_analyzer 5000000 "6M" 0.75 _
                  usd_cad_hedge_cost)).
Defined.

Example usd_cad_default_scenarios :
  HedgingAnalyzer.scenario_analysis usd_cad_analyzer 5000000 "6M" 0.75 None
  = Ok [ {| Future_Spot := 1.2888; Spot_Change_pct := Fin (-10.00);
            Hedged_PnL := -517500.00; Unhedged_PnL := -179000.00;
            Total_PnL := -696500.00; Effective_Rate := 1.3923 |};
         {| Future_Spot := 1.3604; Spot_Change_pct := Fin (-5.00);
            Hedged_PnL := -249000.00; Unhedged_PnL := -89500.00;
            Total_PnL := -338500.00; Effective_Rate := 1.4102 |};
         {| Future_Spot := 1.4320; Spot_Change_pct := Fin 0.00;
            Hedged_PnL := 19500.00; Unhedged_PnL := 0.00;
            Total_PnL := 19500.00; Effective_Rate := 1.4281 |};
         {| Future_Spot := 1.5036; Spot_Change_pct := Fin 5.00;
            Hedged_PnL := 288000.00; Unhedged_PnL := 89500.00;
            Total_PnL := 377500.00; Effective_Rate := 1.4460 |};
         {| Future_Spot := 1.5752; Spot_Change_pct := Fin 10.00;
            Hedged_PnL := 556500.00; Unhedged_PnL := 179000.00;
            Total_PnL := 735500.00; Effective_Rate := 1.4639 |} ].
Proof. vm_compute. reflexivity. Qed.

(** ** [compare_hedge_ratios] *)

Section Comparison.

Import Spec Props.

Lemma comparison_row_found self notional tenor future_spot ratio row rows srow srows :
  HedgingAnalyzer.rows_with_tenor (HedgingAnalyzer.forward_curve self) tenor
  = row :: rows ->
  HedgingAnalyzer.rows_with_tenor (HedgingAnalyzer.forward_curve self) "Spot"
  = srow :: srows ->
  HedgingAnalyzer.comparison_row self notional tenor future_spot ratio
  = Ok (comparison_of notional (Forward_Rate row) (Forward_Rate srow) future_spot ratio).
Proof.
  intros Ht Hs. unfold HedgingAnalyzer.comparison_row, HedgingAnalyzer.scenario_analysis.
  rewrite (calculate_hedge_cost_found _ _ _ _ _ _ _ _ Ht Hs). reflexivity.
Qed.

Lemma comparison_row_Err self notional tenor future_spot ratio e :
  HedgingAnalyzer.calculate_hedge_cost self notional tenor ratio = Err e ->
  HedgingAnalyzer.comparison_row self notional tenor future_spot ratio = Err e.
Proof.
  intros H. unfold HedgingAnalyzer.comparison_row, HedgingAnalyzer.scenario_analysis.
  rewrite H. reflexivity.
Qed.

Lemma comparison_loop_found self notional tenor future_spot ratios acc
    row rows srow srows :
  HedgingAnalyzer.rows_with_tenor (HedgingAnalyzer.forward_curve self) tenor
  = row :: rows ->
  HedgingAnalyzer.rows_with_tenor (HedgingAnalyzer.forward_curve self) "Spot"
  = srow :: srows ->
  HedgingAnalyzer.comparison_loop self notional tenor future_spot ratios acc
  = Ok (acc ++ (comparison_of notional (Forward_Rate row) (Forward_Rate srow)
                  future_spot <$> ratios)).
Proof.
  intros Ht Hs. revert acc. induction ratios as [| ratio ratios IH]; intros acc; simpl.
  - rewrite app_nil_r. reflexivity.
  - rewrite (comparison_row_found _ _ _ _ _ _ _ _ _ Ht Hs).
    cbn [mbind result_bind]. rewrite IH, <- app_assoc. reflexivity.
Qed.

(** The outcome of the comparison against that of one hedge cost. *)
Lemma compare_hedge_ratios_cases self notional tenor future_spot hedge_ratio :
  match HedgingAnalyzer.calculate_hedge_cost self notional tenor hedge_ratio with
  | Ok info =>
      HedgingAnalyzer.compare_hedge_ratios self notional tenor future_spot
      = Ok (comparison_of notional (hi_Forward_Rate info) (hi_Spot_Rate info)
              future_spot <$> HedgingAnalyzer.hedge_ratios)
  | Err e =>
      HedgingAnalyzer.compare_hedge_ratios self notional tenor future_spot = Err e
  end.
Proof.
  destruct (HedgingAnalyzer.calculate_hedge_cost self notional tenor hedge_ratio)
    as [info | e] eqn:H.
  - apply calculate_hedge_cost_inv in H as (row & rows & srow & srows & Ht & Hs & ->).
    apply (comparison_loop_found _ _ _ _ _ [] _ _ _ _ Ht Hs).
  - pose proof (calculate_hedge_cost_outcome self notional hedge_ratio notional 0.0 tenor)
      as Hsame.
    rewrite H in Hsame.
    destruct (HedgingAnalyzer.calculate_hedge_cost self notional tenor 0.0)
      as [info | e'] eqn:H0; [contradiction |]. subst e'.
    unfold HedgingAnalyzer.compare_hedge_ratios, HedgingAnalyzer.hedge_ratios.
    cbn [HedgingAnalyzer.comparison_loop].
    rewrite (comparison_row_Err _ _ _ _ _ _ H0). reflexivity.
Qed.



End Comparison.

(** X16.  Whenever [compare_hedge_ratios] returns, it returns five rows
    labelled 0%, 25%, 50%, 75%, 100% in this order; in the row of each
    ratio the hedged and unhedged amounts add up to the notional, and the
    total P&L and effective rate are those of the single row that
    [scenario_analysis] returns for that ratio and the one scenario
    [future_spot]. *)
Theorem compare_hedge_ratios_rows
    (self : HedgingAnalyzer.t) (notional : Q) (tenor : string) (future_spot : Q)
    (rows : list ComparisonRow) :
  HedgingAnalyzer.compare_hedge_ratios self notional tenor future_spot = Ok rows ->
  cmp_Hedge_Ratio <$> rows = Props.ratio_labels
  /\ forall i row ratio,
       rows !! i = Some row -> HedgingAnalyzer.hedge_ratios !! i = Some ratio ->
       cmp_Hedged_Amount row + cmp_Unhedged_Amount row == notional
       /\ cmp_Hedged_Amount row = notional * ratio
       /\ exists scenario,
            HedgingAnalyzer.scenario_analysis self notional tenor ratio
              (Some [future_spot]) = Ok [scenario]
            /\ cmp_Total_PnL row = Total_PnL scenario
            /\ cmp_Effective_Rate row = Effective_Rate scenario.
Proof.
  intros H.
  pose proof (compare_hedge_ratios_cases self notional tenor future_spot 0.0) as Hc.
  destruct (HedgingAnalyzer.calculate_hedge_cost self notional tenor 0.0)
    as [info | e] eqn:Hinfo; [| congruence].
  assert (E : rows = Props.comparison_of notional (hi_Forward_Rate info)
                       (hi_Spot_Rate info) future_spot
                     <$> HedgingAnalyzer.hedge_ratios) by congruence.
  subst rows. clear H Hc.
  split; [reflexivity |].
  intros i row ratio Hrow Hratio.
  rewrite list_lookup_fmap, Hratio in Hrow. injection Hrow as <-.
  unfold Props.comparison_of. simpl.
  split; [ring |]. split; [reflexivity |].
  apply calculate_hedge_cost_inv in Hinfo
    as (crow & crows & srow & srows & Ht & Hs & ->). simpl.
  eexists. split.
  - unfold HedgingAnalyzer.scenario_analysis.
    rewrite (calculate_hedge_cost_found _ _ _ _ _ _ _ _ Ht Hs). reflexivity.
  - split; reflexivity.
Qed.

Example usd_cad_comparison :
  HedgingAnalyzer.compare_hedge_ratios usd_cad_analyzer 5000000 "6M" 1.3200
  = Ok [ {| cmp_Hedge_Ratio := "0%"; cmp_Hedged_Amount := 5000000 * 0.0;
            cmp_Unhedged_Amount := 5000000 * (1 - 0.0);
            cmp_Total_PnL := -560000.00; cmp_Effective_Rate := 1.3200 |};
         {| cmp_Hedge_Ratio := "25%"; cmp_Hedged_Amount := 5000000 * 0.25;
            cmp_Unhedged_Amount := 5000000 * (1 - 0.25);
            cmp_Total_PnL := -553500.00; cmp_Effective_Rate := 1.3467 |};
         {| cmp_Hedge_Ratio := "50%"; cmp_Hedged_Amount := 5000000 * 0.50;
            cmp_Unhedged_Amount := 5000000 * (1 - 0.50);
            cmp_Total_PnL := -547000.00; cmp_Effective_Rate := 1.3734 |};
         {| cmp_Hedge_Ratio := "75%"; cmp_Hedged_Amount := 5000000 * 0.75;
            cmp_Unhedged_Amount := 5000000 * (1 - 0.75);
            cmp_Total_PnL := -540500.00; cmp_Effective_Rate := 1.4001 |};
         {| cmp_Hedge_Ratio := "100%"; cmp_Hedged_Amount := 5000000 * 1.0;
            cmp_Unhedged_Amount := 5000000 * (1 - 1.0);
            cmp_Total_PnL := -534000.00; cmp_Effective_Rate := 1.4268 |} ].
Proof. vm_compute. reflexivity. Qed.

Lemma compare_hedge_ratios_rows_witness :
  exists rows,
    HedgingAnalyzer.compare_hedge_ratios usd_cad_analyzer 5000000 "6M" 1.3200 = Ok rows
    /\ cmp_Hedge_Ratio <$> rows = Props.ratio_labels.
Proof.
  eexists. split; [exact usd_cad_comparison |].
  exact (proj1 (compare_hedge_ratios_rows usd_cad_analyzer 5000000 "6M" 1.3200 _
                  usd_cad_comparison)).
Defined.



(** X18.  [compare_hedge_ratios] fails exactly when [calculate_hedge_cost]
    fails for the same notional and tenor, at any hedge ratio, and with
    the same error; otherwise it returns. *)
Theorem compare_hedge_ratios_errors
    (self : HedgingAnalyzer.t) (notional : Q) (tenor : string)
    (future_spot hedge_ratio : Q) (e : exn) :
  (HedgingAnalyzer.compare_hedge_ratios self notional tenor future_spot = Err e
   <-> HedgingAnalyzer.calculate_hedge_cost self notional tenor hedge_ratio = Err e)
  /\ (is_Ok (HedgingAnalyzer.compare_hedge_ratios self notional tenor future_spot)
      <-> is_Ok (HedgingAnalyzer.calculate_hedge_cost self notional tenor hedge_ratio)).
Proof.
  pose proof (compare_hedge_ratios_cases self notional tenor future_spot hedge_ratio)
    as Hc.
  destruct (HedgingAnalyzer.calculate_hedge_cost self notional tenor hedge_ratio)
    as [info | e']; rewrite Hc.
  - split; split; try discriminate; intros _; eexists; reflexivity.
  - split; [split; intros [= ->]; reflexivity |].
    split; intros [x Hx]; discriminate.
Qed.

Example compare_hedge_ratios_unknown_tenor :
  HedgingAnalyzer.compare_hedge_ratios usd_cad_analyzer 5000000 "SPOT" 1.3200
  = Err (ValueError "Tenor SPOT not found in forward curve").
Proof. reflexivity. Qed.

(** ** Outcomes of [generate_hedge_recommendation] on any analyzer *)

Section RecommendationOutcomes.

Import Spec Props.

(** The recommendation, once the rows of the tenor and of the spot are
    known: it is decided by the number of "/"-separated parts of the pair. *)
Lemma generate_hedge_recommendation_found self notional tenor market_view
    row rows srow srows :
  HedgingAnalyzer.rows_with_tenor (HedgingAnalyzer.forward_curve self) tenor
  = row :: rows ->
  HedgingAnalyzer.rows_with_tenor (HedgingAnalyzer.forward_curve self) "Spot"
  = srow :: srows ->
  match split "/" (HedgingAnalyzer.pair self) with
  | _ :: _ :: _ =>
      exists r ratio,
        HedgingAnalyzer.generate_hedge_recommendation self notional tenor market_view
        = Ok r
        /\ (ratio = 0.50 \/ ratio = 0.75 \/ ratio = 1.00)
        /\ HedgingAnalyzer.calculate_hedge_cost self notional tenor ratio
           = Ok (rec_Hedge_Details r)
        /\ rec_Recommendation r
           = Format.str_int (py_int (ratio * 100)) +:+ "% Hedge Ratio"
  | _ =>
      HedgingAnalyzer.generate_hedge_recommendation self notional tenor market_view
      = Err IndexError
  end.
Proof.
  intros Ht Hs. unfold HedgingAnalyzer.generate_hedge_recommendation.
  rewrite (calculate_hedge_cost_found _ _ _ _ _ _ _ _ Ht Hs).
  destruct (split_nonempty "/" (HedgingAnalyzer.pair self)) as (a & rest & Hsplit).
  rewrite Hsplit.
  destruct (String.eqb (lower market_view) "bullish");
    [| destruct (String.eqb (lower market_view) "bearish")];
    cbn [mbind result_bind mret result_ret py_index lookup list_lookup];
    rewrite (calculate_hedge_cost_found _ _ _ _ _ _ _ _ Ht Hs);
    cbn [mbind result_bind mret result_ret];
    (destruct rest as [| b rest];
     [ reflexivity
     | cbn [mbind result_bind mret result_ret py_index lookup list_lookup];
       eexists _, _; split; [reflexivity |];
       cbn [rec_Hedge_Details rec_Recommendation];
       split; [| split; [rewrite (calculate_hedge_cost_found _ _ _ _ _ _ _ _ Ht Hs);
                         reflexivity | reflexivity]] ]).
  - left. reflexivity.
  - right. right. reflexivity.
  - right. left. reflexivity.
Qed.

Lemma generate_hedge_recommendation_Err self notional tenor market_view e :
  HedgingAnalyzer.calculate_hedge_cost self notional tenor 1 = Err e ->
  HedgingAnalyzer.generate_hedge_recommendation self notional tenor market_view
  = Err e.
Proof.
  intros H. unfold HedgingAnalyzer.generate_hedge_recommendation.
  rewrite H. reflexivity.
Qed.

End RecommendationOutcomes.

(** X19.  [generate_hedge_recommendation] on any analyzer and for any
    market view: when [calculate_hedge_cost] fails for the tenor it fails
    with the same error; when the hedge cost is available and the pair of
    the analyzer contains no "/", it raises [IndexError], also for a
    neutral view; when the hedge cost is available and the pair contains a
    "/", it returns. *)
Theorem generate_hedge_recommendation_outcomes
    (self : HedgingAnalyzer.t) (notional : Q) (tenor market_view : string) :
  (forall e,
     HedgingAnalyzer.calculate_hedge_cost self notional tenor 1 = Err e ->
     HedgingAnalyzer.generate_hedge_recommendation self notional tenor market_view
     = Err e)
  /\ (is_Ok (HedgingAnalyzer.calculate_hedge_cost self notional tenor 1) ->
      ~ Props.has_slash (HedgingAnalyzer.pair self) ->
      HedgingAnalyzer.generate_hedge_recommendation self notional tenor market_view
      = Err IndexError)
  /\ (is_Ok (HedgingAnalyzer.calculate_hedge_cost self notional tenor 1) ->
      Props.has_slash (HedgingAnalyzer.pair self) ->
      is_Ok (HedgingAnalyzer.generate_hedge_recommendation self notional tenor
               market_view)).
Proof.
  split; [intros e; apply generate_hedge_recommendation_Err |].
  split; intros [info Hinfo] Hslash;
    apply calculate_hedge_cost_inv in Hinfo
      as (row & rows & srow & srows & Ht & Hs & _);
    pose proof (generate_hedge_recommendation_found self notional tenor market_view
                  _ _ _ _ Ht Hs) as H.
  - rewrite (split_no_sep "/" _ Hslash) in H. exact H.
  - apply split_has_slash in Hslash as (a & b & rest & Hsplit).
    rewrite Hsplit in H. destruct H as (r & ratio & Hr & _). eexists. exact Hr.
Qed.

Lemma generate_hedge_recommendation_outcomes_witness :
  HedgingAnalyzer.generate_hedge_recommendation
    {| HedgingAnalyzer.forward_curve := usd_cad_rows;
       HedgingAnalyzer.pair := "USDCAD" |} 5000000 "6M" "neutral"
  = Err IndexError.
Proof.
  apply (proj1 (proj2 (generate_hedge_recommendation_outcomes
                         {| HedgingAnalyzer.forward_curve := usd_cad_rows;
                            HedgingAnalyzer.pair := "USDCAD" |}
                         5000000 "6M" "neutral"))).
  - eexists. vm_compute. reflexivity.
  - vm_compute. intuition discriminate.
Defined.

(** X20.  Whenever [generate_hedge_recommendation] returns, whatever the
    market view, the recommended ratio is 0.50, 0.75 or 1.00; the hedge
    details are what [calculate_hedge_cost] returns at that ratio, so the
    hedged amount is the notional times the ratio; and the recommendation
    reads as that ratio in percent followed by "% Hedge Ratio". *)
Theorem generate_hedge_recommendation_details
    (self : HedgingAnalyzer.t) (notional : Q) (tenor market_view : string)
    (r : Recommendation) :
  HedgingAnalyzer.generate_hedge_recommendation self notional tenor market_view
  = Ok r ->
  exists ratio,
    (ratio = 0.50 \/ ratio = 0.75 \/ ratio = 1.00)
    /\ HedgingAnalyzer.calculate_hedge_cost self notional tenor ratio
       = Ok (rec_Hedge_Details r)
    /\ hi_Hedge_Ratio (rec_Hedge_Details r) = ratio
    /\ hi_Hedged_Amount (rec_Hedge_Details r) = notional * ratio
    /\ rec_Recommendation r
       = Format.str_int (py_int (ratio * 100)) +:+ "% Hedge Ratio".
Proof.
  intros H.
  destruct (HedgingAnalyzer.calculate_hedge_cost self notional tenor 1)
    as [info | e] eqn:Hinfo.
  2:{ rewrite (generate_hedge_recommendation_Err _ _ _ _ _ Hinfo) in H. discriminate. }
  apply calculate_hedge_cost_inv in Hinfo as (row & rows & srow & srows & Ht & Hs & _).
  pose proof (generate_hedge_recommendation_found self notional tenor market_view
                _ _ _ _ Ht Hs) as Hf.
  destruct (split "/" (HedgingAnalyzer.pair self)) as [| a [| b rest]];
    try congruence.
  destruct Hf as (r' & ratio & Hr' & Hratio & Hdetails & Hrec).
  assert (r' = r) as -> by congruence.
  exists ratio. split; [exact Hratio |]. split; [exact Hdetails |].
  apply calculate_hedge_cost_inv in Hdetails
    as (row' & rows' & srow' & srows' & _ & _ & ->).
  simpl. auto.
Qed.

Lemma generate_hedge_recommendation_details_witness :
  exists ratio,
    (ratio = 0.50 \/ ratio = 0.75 \/ ratio = 1.00)
    /\ hi_Hedged_Amount
         {| hi_Pair := "USD/CAD";
            hi_Notional := 5000000;
            hi_Hedge_Ratio := 0.50;
            hi_Hedged_Amount := 5000000 * 0.50;
            hi_Unhedged_Amount := 5000000 * (1 - 0.50);
            hi_Tenor := "6M";
            hi_Settlement_Date := "2025-06-29";
            hi_Spot_Rate := 1.4320;
            hi_Forward_Rate := 1.4268;
            hi_Forward_Points := -52.00;
            hi_Premium_Discount_pct := Fin (-0.3631);
            hi_Locked_In_Rate := 1.4268 |} = 5000000 * ratio.
Proof.
  destruct (generate_hedge_recommendation_details usd_cad_analyzer 5000000 "6M"
              "Bullish" _ usd_cad_recommendation_bullish)
    as (ratio & Hratio & _ & _ & Hamount & _).
  exists ratio. split; [exact Hratio | exact Hamount].
Defined.

(** ** From a built curve to its analyses *)

Section Pipeline.

Import Spec Props.

Lemma build_forward_curve_has_slash self pair spot now curve :
  FXDataFetcher.build_forward_curve self pair spot now = Ok curve -> has_slash pair.
Proof.
  intros H.
  destruct (in_dec ascii_dec "/"%char (list_ascii_of_string pair)) as [Hin | Hout];
    [exact Hin |].
  unfold FXDataFetcher.build_forward_curve in H.
  rewrite (split_no_sep "/" pair Hout) in H. discriminate.
Qed.

Lemma built_spot_row self pair spot now curve row :
  FXDataFetcher.build_forward_curve self pair spot now = Ok curve ->
  row ∈ curve -> Tenor row = "Spot" -> Forward_Rate row = spot.
Proof.
  intros H Hin Hspot.
  apply build_forward_curve_rows in H as (base & quote & _ & _ & _ & Hrows).
  apply list_elem_of_lookup in Hin as [i Hi].
  apply Hrows in Hi as (name & days & Hit & Hrow).
  apply tenor_row_Ok in Hrow as (_ & Hname & _ & _ & Hzero & _).
  apply tenors_spot in Hit as [Hiff _].
  apply Hzero, Hiff. congruence.
Qed.

End Pipeline.

(** X21.  A curve that [build_forward_curve] returns can always be
    analysed: the analyzer constructed from it keeps the pair, and for each
    of the eight tenor labels, any notional, hedge ratio, future spot and
    market view, [calculate_hedge_cost] returns with the input spot as spot
    rate and the forward rate of the row of that label,
    and [scenario_analysis], [compare_hedge_ratios] and
    [generate_hedge_recommendation] return as well. *)
Theorem built_curve_analyses
    (self : FXDataFetcher.t) (pair : string) (spot_rate : Q) (now : clock)
    (curve : list CurveRow) :
  FXDataFetcher.build_forward_curve self pair spot_rate now = Ok curve ->
  exists analyzer,
    HedgingAnalyzer.init curve = Ok analyzer
    /\ HedgingAnalyzer.pair analyzer = pair
    /\ forall tenor notional hedge_ratio future_spot market_view,
         tenor ∈ Spec.tenor_labels ->
         (exists info row,
            HedgingAnalyzer.calculate_hedge_cost analyzer notional tenor hedge_ratio
            = Ok info
            /\ hi_Pair info = pair /\ hi_Spot_Rate info = spot_rate
            /\ row ∈ curve /\ Tenor row = tenor
            /\ hi_Forward_Rate info = Forward_Rate row
            /\ hi_Forward_Points info = Forward_Points row
            /\ hi_Settlement_Date info = Settlement_Date row)
         /\ is_Ok (HedgingAnalyzer.scenario_analysis analyzer notional tenor
                     hedge_ratio None)
         /\ is_Ok (HedgingAnalyzer.compare_hedge_ratios analyzer notional tenor
                     future_spot)
         /\ is_Ok (HedgingAnalyzer.generate_hedge_recommendation analyzer notional
                     tenor market_view).
Proof.
  intros H.
  assert (Hbuilt : Spec.built (FXDataFetcher.interest_rates self) pair spot_rate now curve)
    by (left; destruct self; exact H).
  destruct (built_analyzer _ _ _ _ _ Hbuilt) as [Hwf Hinit].
  eexists. split; [exact Hinit |]. split; [reflexivity |].
  intros tenor notional hedge_ratio future_spot market_view Hin.
  set (analyzer := {| HedgingAnalyzer.forward_curve := curve;
                      HedgingAnalyzer.pair := pair |}).
  destruct (well_formed_row _ _ Hwf Hin) as (row & Hrow_in & Hrow_t & Hrow).
  destruct (well_formed_row _ _ Hwf spot_label) as (srow & Hsrow_in & Hsrow_t & Hsrow).
  pose proof (built_spot_row _ _ _ _ _ _ H Hsrow_in Hsrow_t) as Hspot.
  assert (Hcost : forall n r,
             HedgingAnalyzer.calculate_hedge_cost analyzer n tenor r
             = Ok {| hi_Pair := pair;
                     hi_Notional := n;
                     hi_Hedge_Ratio := r;
                     hi_Hedged_Amount := n * r;
                     hi_Unhedged_Amount := n * (1 - r);
                     hi_Tenor := tenor;
                     hi_Settlement_Date := Settlement_Date row;
                     hi_Spot_Rate := Forward_Rate srow;
                     hi_Forward_Rate := Forward_Rate row;
                     hi_Forward_Points := Forward_Points row;
                     hi_Premium_Discount_pct :=
                       np_round (np_mul (np_div (Forward_Rate row - Forward_Rate srow)
                                           (Forward_Rate srow)) 100) 4;
                     hi_Locked_In_Rate := Forward_Rate row |}).
  { intros n r. apply (calculate_hedge_cost_found analyzer n tenor r _ _ _ _ Hrow Hsrow). }
  split; [| split; [| split]].
  - eexists _, row. split; [apply Hcost |]. simpl. auto 10.
  - unfold HedgingAnalyzer.scenario_analysis. rewrite Hcost. eexists. reflexivity.
  - pose proof (compare_hedge_ratios_cases analyzer notional tenor future_spot 1) as Hc.
    rewrite Hcost in Hc. eexists. exact Hc.
  - pose proof (generate_hedge_recommendation_found analyzer notional tenor market_view
                  _ _ _ _ Hrow Hsrow) as Hg.
    apply build_forward_curve_has_slash, split_has_slash in H
      as (a & b & rest & Hsplit).
    change (HedgingAnalyzer.pair analyzer) with pair in Hg. rewrite Hsplit in Hg.
    destruct Hg as (r & ratio & Hr & _). eexists. exact Hr.
Qed.

Lemma built_curve_analyses_witness :
  exists analyzer,
    HedgingAnalyzer.init usd_cad_rows = Ok analyzer
    /\ is_Ok (HedgingAnalyzer.generate_hedge_recommendation analyzer 5000000 "1Y"
                "neutral").
Proof.
  destruct (built_curve_analyses FXDataFetcher.init "USD/CAD" 1.4320 usd_cad_clock
              usd_cad_rows usd_cad_curve) as (analyzer & Hinit & _ & H).
  exists analyzer. split; [exact Hinit |].
  destruct (H "1Y" 5000000 1 1.4320 "neutral") as (_ & _ & _ & Hg).
  - apply (bool_decide_unpack _). vm_compute. exact I.
  - exact Hg.
Defined.

(** ** Spot rates and the curves of all pairs *)

Section AllCurves.

Import Spec Props.

Lemma simulator_spot_loop uniform now items acc tick :
  FXDataSimulator.spot_loop uniform now items acc tick
  = acc ++ imap (fun i item =>
                   {| ss_Pair := fst item;
                      ss_Spot_Rate := py_round (snd item * (1 + uniform (tick + i)%nat)) 4;
                      ss_Timestamp := now (tick + i)%nat |}) items.
Proof.
  revert acc tick. induction items as [| [pair rate] items IH]; intros acc tick; simpl.
  - rewrite app_nil_r. reflexivity.
  - rewrite IH, <- app_assoc. simpl. rewrite Nat.add_0_r. do 2 f_equal.
    apply imap_ext. intros i item _. simpl.
    replace (tick + S i)%nat with (S (tick + i))%nat by lia. reflexivity.
Qed.

Lemma fetcher_spot_loop pair_names yf now tickers acc tick :
  let kept := omap (fetched pair_names yf) tickers in
  FXDataFetcher.spot_loop pair_names yf now tickers acc tick
  = acc ++ imap (fun i item =>
                   {| fs_Ticker := fst (fst item);
                      fs_Pair := snd (fst item);
                      fs_Spot_Rate := snd item;
                      fs_Timestamp := now (tick + i)%nat |}) kept.
Proof.
  revert acc tick. induction tickers as [| ticker tickers IH]; intros acc tick; simpl.
  - rewrite app_nil_r. reflexivity.
  - unfold fetched at 1.
    destruct (yf ticker) as [| close]; [apply IH |].
    destruct (last close) as [spot_rate |]; [| apply IH].
    destruct (pair_names !! ticker) as [name |]; [| apply IH].
    simpl. rewrite IH, <- app_assoc. simpl. rewrite Nat.add_0_r. do 2 f_equal.
    apply imap_ext. intros i item _. simpl.
    replace (tick + S i)%nat with (S (tick + i))%nat by lia. reflexivity.
Qed.

(** The simulator's loop over the spot rows is the fetcher's. *)
Lemma simulator_curves_loop self now rows acc tick :
  FXDataSimulator.curves_loop self now rows acc tick
  = FXDataFetcher.curves_loop (FXDataSimulator.as_fetcher self) now rows acc tick.
Proof.
  revert acc tick. induction rows as [| [pair spot] rows IH]; intros acc tick; simpl;
    [reflexivity |].
  rewrite simulator_build_forward_curve.
  destruct (FXDataFetcher.build_forward_curve _ _ _ _) as [curve | e]; [| reflexivity].
  cbn [mbind result_bind]. apply IH.
Qed.

(** When every row can be built, the loop returns a curve for each pair of
    the rows, beside what the dict held before. *)
Lemma curves_loop_returns self now rows acc tick :
  (forall i pair spot,
     rows !! i = Some (pair, spot) ->
     is_Ok (FXDataFetcher.build_forward_curve self pair spot
              (fun k => now (tick + 8 * i + k)%nat))) ->
  exists curves,
    FXDataFetcher.curves_loop self now rows acc tick = Ok curves
    /\ (forall pair, is_Some (curves !! pair)
                     <-> is_Some (acc !! pair) \/ pair ∈ (fst <$> rows))
    /\ (forall pair curve,
          curves !! pair = Some curve ->
          acc !! pair = Some curve
          \/ exists i spot,
               rows !! i = Some (pair, spot)
               /\ FXDataFetcher.build_forward_curve self pair spot
                    (fun k => now (tick + 8 * i + k)%nat) = Ok curve).
Proof.
  revert acc tick. induction rows as [| [pair0 spot0] rows IH]; intros acc tick H.
  - exists acc. split; [reflexivity |]. split.
    + intros pair. split; [auto |]. intros [Hs | Hin]; [exact Hs | inversion Hin].
    + intros pair curve Hc. auto.
  - destruct (H 0%nat pair0 spot0 eq_refl) as [curve0 Hcurve0].
    cbn [FXDataFetcher.curves_loop].
    assert (E0 : (fun k => now (tick + k)%nat) = (fun k => now (tick + 8 * 0 + k)%nat))
      by (simpl; rewrite Nat.add_0_r; reflexivity).
    rewrite E0, Hcurve0. cbn [mbind result_bind].
    destruct (IH (<[pair0 := curve0]> acc) (tick + length FXDataFetcher.tenors)%nat)
      as (curves & Hcurves & Hdom & Hval).
    { intros i pair spot Hi.
      replace (tick + length FXDataFetcher.tenors + 8 * i)%nat
        with (tick + 8 * S i)%nat by (simpl; lia).
      apply (H (S i)). exact Hi. }
    exists curves. split; [exact Hcurves |]. split.
    + intros pair. rewrite Hdom, fmap_cons, elem_of_cons. simpl.
      rewrite lookup_insert_is_Some. destruct (decide (pair0 = pair)) as [-> | Hne].
      * split; auto.
      * split.
        -- intros [[-> | [_ Hs]] | Hin]; auto; contradiction.
        -- intros [Hs | [-> | Hin]]; auto; contradiction.
    + intros pair curve Hc. apply Hval in Hc as [Hc | (i & spot & Hi & Hb)].
      * destruct (decide (pair0 = pair)) as [-> | Hne].
        -- rewrite lookup_insert_eq in Hc. injection Hc as <-.
           right. exists 0%nat, spot0. split; [reflexivity |].
           rewrite <- E0. rewrite E0. exact Hcurve0.
        -- rewrite lookup_insert_ne in Hc by exact Hne. auto.
      * right. exists (S i), spot. split; [exact Hi |].
        replace (tick + 8 * S i)%nat
          with (tick + length FXDataFetcher.tenors + 8 * i)%nat by (simpl; lia).
        exact Hb.
Qed.

(** A quotable pair is built on any clock in range. *)
Lemma quotable_returns self pair spot now :
  quotable (FXDataFetcher.interest_rates self) pair ->
  clock_in_range now (length FXDataFetcher.tenors) ->
  is_Ok (FXDataFetcher.build_forward_curve self pair spot now).
Proof.
  intros (base & quote & d & f & -> & Hb & Hq & Hrule & Hf) Hclock.
  apply (build_forward_curve_returns self base quote spot now d f); assumption.
Qed.

End AllCurves.

(** ** Pairs that split in two *)

Section SplitTwo.

Import Spec Props.

Lemma split_one (sep : ascii) (s q : string) :
  split sep s = [q] -> s = q /\ ~ In sep (list_ascii_of_string q).
Proof.
  revert q. induction s as [| c s IH]; intros q; simpl.
  - intros [= <-]. split; [reflexivity | intros []].
  - destruct (Ascii.eqb_spec c sep) as [-> | Hne].
    + destruct (split_nonempty sep s) as (w & ws & ->). discriminate.
    + destruct (split sep s) as [| w ws] eqn:Hs; [intros [= <-] |].
      * destruct (split_nonempty sep s) as (w & ws & Hw). congruence.
      * intros [= <- ->]. destruct (IH w eq_refl) as [-> Hno].
        split; [reflexivity |]. simpl. intros [Hc | Hin]; [congruence | auto].
Qed.

Lemma split_two (pair base quote : string) :
  split "/" pair = [base; quote] ->
  pair = pair_of base quote /\ no_slash base /\ no_slash quote.
Proof.
  revert base. induction pair as [| c s IH]; intros base; simpl; [discriminate |].
  destruct (Ascii.eqb_spec c "/") as [-> | Hne].
  - intros [= <- H]. apply split_one in H as [-> Hno].
    split; [reflexivity |]. split; [intros [] | exact Hno].
  - destruct (split "/" s) as [| w ws] eqn:Hs; [discriminate |].
    intros [= <- ->]. destruct (IH w eq_refl) as (-> & Hw & Hq).
    split; [reflexivity |]. split; [| exact Hq].
    unfold no_slash. simpl. intros [Hc | Hin]; [congruence | auto].
Qed.

(** A pair is quotable when it splits in two codes whose rates the
    direction rule finds, the foreign one not negative. *)
Lemma quotable_split rates pair base quote d f :
  split "/" pair = [base; quote] ->
  direction_rule rates base quote d f -> 0 <= f -> quotable rates pair.
Proof.
  intros Hsplit Hrule Hf. apply split_two in Hsplit as (-> & Hb & Hq).
  exists base, quote, d, f. auto.
Qed.

End SplitTwo.

(** ** [get_spot_rates] *)

Lemma simulated_rate_bound rate u :
  0 <= rate -> - 0.005 <= u <= 0.005 ->
  Qabs (py_round (rate * (1 + u)) 4 - rate) <= 0.005 * rate + 0.00005.
Proof.
  intros Hrate [Hlo Hhi].
  pose proof (py_round_error (rate * (1 + u)) 4) as Herr.
  assert (Hb : Qabs (py_round (rate * (1 + u)) 4 - rate * (1 + u)) <= 0.00005)
    by (eapply Qle_trans; [exact Herr | vm_compute; discriminate]).
  apply Qabs_Qle_condition in Hb as [Hb1 Hb2].
  assert (H1 : 0 <= rate * (0.005 - u)) by (apply Qmult_le_0_compat; lra).
  assert (H2 : 0 <= rate * (u + 0.005)) by (apply Qmult_le_0_compat; lra).
  apply Qabs_Qle_condition. split; lra.
Qed.

(** X22.  The simulator's [get_spot_rates] returns one row per entry of
    its spot table, in the order of the table and with the [k]-th clock
    reading as timestamp; each simulated rate has at most four decimals,
    and for a table rate that is not negative and a random variation
    within ±0.005 it lies within [0.005 × rate + 0.00005] of the table
    rate. *)
Theorem simulator_get_spot_rates_rows
    (spot_rates : list (string * Q)) (uniform : nat -> Q) (now : clock) :
  ss_Pair <$> FXDataSimulator.get_spot_rates spot_rates uniform now
  = fst <$> spot_rates
  /\ forall i pair rate row,
       spot_rates !! i = Some (pair, rate) ->
       FXDataSimulator.get_spot_rates spot_rates uniform now !! i = Some row ->
       ss_Timestamp row = now i
       /\ Spec.has_decimals 4 (ss_Spot_Rate row)
       /\ (0 <= rate -> - 0.005 <= uniform i <= 0.005 ->
           Qabs (ss_Spot_Rate row - rate) <= 0.005 * rate + 0.00005).
Proof.
  unfold FXDataSimulator.get_spot_rates. rewrite simulator_spot_loop. simpl.
  split.
  - rewrite fmap_imap. apply imap_const.
  - intros i pair rate row Hi Hrow.
    rewrite list_lookup_imap, Hi in Hrow.
    assert (E : row = {| ss_Pair := pair;
                         ss_Spot_Rate := py_round (rate * (1 + uniform i)) 4;
                         ss_Timestamp := now i |})
      by (simpl in Hrow; congruence).
    subst row. split; [reflexivity |]. split; [apply py_round_decimals |].
    apply simulated_rate_bound.
Qed.

Example simulator_spot_rates_unchanged :
  (fun row => (ss_Pair row, ss_Spot_Rate row))
  <$> FXDataSimulator.get_spot_rates FXDataSimulator.spot_rates (fun _ => 0)
        usd_cad_clock
  = [("EUR/USD", 1.0545); ("GBP/USD", 1.2675); ("USD/JPY", 149.8500);
     ("USD/CAD", 1.4320); ("AUD/USD", 0.6315); ("USD/CHF", 0.8895)].
Proof. reflexivity. Qed.

(** X23.  The fetcher's [get_spot_rates] never passes a failure on: it
    returns one row for each ticker, in the order of [major_pairs], whose
    download yields a frame that is not empty and that has a display name,
    with that name and the last close rounded to four decimals, and leaves
    out every ticker whose download raises or is empty; the timestamps are
    the successive readings of the clock. *)
Theorem fetcher_get_spot_rates_rows
    (major_pairs : list string) (pair_names : gmap string string)
    (yf : string -> history) (now : clock) :
  (fun row => (fs_Ticker row, fs_Pair row, fs_Spot_Rate row))
  <$> FXDataFetcher.get_spot_rates major_pairs pair_names yf now
  = omap (Props.fetched pair_names yf) major_pairs
  /\ fs_Timestamp <$> FXDataFetcher.get_spot_rates major_pairs pair_names yf now
     = now <$> seq 0 (length (omap (Props.fetched pair_names yf) major_pairs)).
Proof.
  unfold FXDataFetcher.get_spot_rates. rewrite fetcher_spot_loop. simpl.
  set (kept := omap (Props.fetched pair_names yf) major_pairs).
  split.
  - rewrite fmap_imap. rewrite <- (list_fmap_id kept) at 2.
    rewrite <- imap_const. apply imap_ext. intros i [[ticker name] rate] _.
    reflexivity.
  - rewrite fmap_imap. apply list_eq. intros i.
    rewrite list_lookup_imap, list_lookup_fmap.
    destruct (kept !! i) as [item |] eqn:Hi; simpl.
    + rewrite lookup_seq_lt by (apply lookup_lt_is_Some; eauto). reflexivity.
    + rewrite lookup_seq_ge by (apply lookup_ge_None; exact Hi). reflexivity.
Qed.

Example fetcher_spot_rates_partial :
  (fun row => (fs_Ticker row, fs_Pair row, fs_Spot_Rate row))
  <$> FXDataFetcher.get_spot_rates FXDataFetcher.major_pairs FXDataFetcher.pair_names
        (fun ticker =>
           if String.eqb ticker "EURUSD=X" then Closes [1.05449]
           else if String.eqb ticker "USDJPY=X" then Closes []
           else if String.eqb ticker "USDCAD=X" then Closes [1.43; 1.432049]
           else Raises)
        usd_cad_clock
  = [("EURUSD=X", "EUR/USD", 1.0545); ("USDCAD=X", "USD/CAD", 1.4320)].
Proof. reflexivity. Qed.

(** ** [get_all_forward_curves] *)

Section GetAll.

Import Spec Props.

Lemma omap_length_le {A B} (f : A -> option B) (l : list A) :
  (length (omap f l) <= length l)%nat.
Proof.
  induction l as [| a l IH]; csimpl; [lia |].
  destruct (f a); csimpl; lia.
Qed.

Lemma build_forward_curve_pair self pair spot now curve row :
  FXDataFetcher.build_forward_curve self pair spot now = Ok curve ->
  row ∈ curve -> Pair row = pair.
Proof.
  intros H Hin.
  apply build_forward_curve_rows in H as (base & quote & _ & _ & _ & Hrows).
  apply list_elem_of_lookup in Hin as [i Hi].
  apply Hrows in Hi as (name & days & _ & Hrow).
  apply tenor_row_Ok in Hrow as (-> & _). reflexivity.
Qed.

Lemma build_forward_curve_well_formed self pair spot now curve :
  FXDataFetcher.build_forward_curve self pair spot now = Ok curve ->
  well_formed_curve curve.
Proof.
  intros H. apply (built_well_formed (FXDataFetcher.interest_rates self) pair spot now).
  left. destruct self. exact H.
Qed.

(** The curves of all rows of a spot frame whose pairs are quotable. *)
Lemma curves_of_quotable self now (rows : list (string * Q)) n :
  (length rows <= n)%nat ->
  (forall pair spot, (pair, spot) ∈ rows ->
     quotable (FXDataFetcher.interest_rates self) pair) ->
  clock_in_range now (9 * n) ->
  exists curves,
    FXDataFetcher.curves_loop self now rows ∅ (length rows) = Ok curves
    /\ (forall pair, is_Some (curves !! pair) <-> pair ∈ (fst <$> rows))
    /\ (forall pair curve,
          curves !! pair = Some curve ->
          well_formed_curve curve
          /\ (forall row, row ∈ curve -> Pair row = pair)
          /\ exists spot,
               (pair, spot) ∈ rows
               /\ forall row, row ∈ curve -> Tenor row = "Spot" ->
                    Forward_Rate row = spot).
Proof.
  intros Hlen Hq Hclock.
  destruct (curves_loop_returns self now rows ∅ (length rows))
    as (curves & Hcurves & Hdom & Hval).
  { intros i pair spot Hi. apply quotable_returns.
    - apply (Hq pair spot). apply list_elem_of_lookup. eauto.
    - intros k Hk. apply Hclock. simpl in Hk.
      assert (i < length rows)%nat by (apply lookup_lt_is_Some; eauto). lia. }
  exists curves. split; [exact Hcurves |]. split.
  - intros pair. rewrite Hdom, lookup_empty. split; [| auto].
    intros [[x [=]] | Hin]. exact Hin.
  - intros pair curve Hc.
    apply Hval in Hc as [Hc | (i & spot & Hi & Hb)];
      [rewrite lookup_empty in Hc; discriminate |].
    split; [eapply build_forward_curve_well_formed, Hb |].
    split; [intros row Hin; eapply build_forward_curve_pair; eauto |].
    exists spot. split; [apply list_elem_of_lookup; eauto |].
    intros row Hin Hspot. eapply built_spot_row; eauto.
Qed.

Lemma simulator_spot_pairs spot_rates uniform now :
  (fun row => (ss_Pair row, ss_Spot_Rate row))
  <$> FXDataSimulator.get_spot_rates spot_rates uniform now
  = imap (fun i item => (fst item, py_round (snd item * (1 + uniform i)) 4)) spot_rates.
Proof.
  unfold FXDataSimulator.get_spot_rates. rewrite simulator_spot_loop. simpl.
  rewrite fmap_imap. apply imap_ext. intros i item _. reflexivity.
Qed.

Lemma fetcher_spot_pairs major_pairs pair_names yf now :
  (fun row => (fs_Pair row, fs_Spot_Rate row))
  <$> FXDataFetcher.get_spot_rates major_pairs pair_names yf now
  = (fun item => (snd (fst item), snd item))
    <$> omap (fetched pair_names yf) major_pairs.
Proof.
  unfold FXDataFetcher.get_spot_rates. rewrite fetcher_spot_loop. simpl.
  rewrite fmap_imap. rewrite <- imap_const. apply imap_ext.
  intros i item _. reflexivity.
Qed.

Lemma fetched_name pair_names yf ticker item :
  fetched pair_names yf ticker = Some item ->
  pair_names !! ticker = Some (snd (fst item)).
Proof.
  unfold fetched. destruct (yf ticker) as [| close]; [discriminate |].
  destruct (last close); [| discriminate].
  destruct (pair_names !! ticker); [| discriminate].
  intros [= <-]. reflexivity.
Qed.

End GetAll.

(** X24.  When every pair of the simulator's spot table is written
    BASE/QUOTE with codes whose rates the direction rule finds, the foreign
    rate not negative, and the clock stays a year away from the last date
    that [datetime] holds, [get_all_forward_curves] returns, whatever the
    random variations: the dict holds a curve for exactly the pairs of the
    table, each curve is well formed, carries its pair, and has one of the
    simulated spot rates of that pair as its Spot rate. *)
Theorem simulator_get_all_forward_curves_returns
    (self : FXDataSimulator.t) (spot_rates : list (string * Q))
    (uniform : nat -> Q) (now : clock) :
  (forall pair rate, (pair, rate) ∈ spot_rates ->
     Props.quotable (FXDataSimulator.interest_rates self) pair) ->
  Props.clock_in_range now (9 * length spot_rates) ->
  exists curves,
    FXDataSimulator.get_all_forward_curves self spot_rates uniform now = Ok curves
    /\ (forall pair, is_Some (curves !! pair) <-> pair ∈ (fst <$> spot_rates))
    /\ (forall pair curve,
          curves !! pair = Some curve ->
          Spec.well_formed_curve curve
          /\ (forall row, row ∈ curve -> Pair row = pair)
          /\ exists spot_row,
               spot_row ∈ FXDataSimulator.get_spot_rates spot_rates uniform now
               /\ ss_Pair spot_row = pair
               /\ forall row, row ∈ curve -> Tenor row = "Spot" ->
                    Forward_Rate row = ss_Spot_Rate spot_row).
Proof.
  intros Hq Hclock. unfold FXDataSimulator.get_all_forward_curves. cbv zeta.
  rewrite simulator_curves_loop.
  set (spot_df := FXDataSimulator.get_spot_rates spot_rates uniform now).
  assert (Hlen : length spot_df = length spot_rates).
  { unfold spot_df, FXDataSimulator.get_spot_rates.
    rewrite simulator_spot_loop. simpl. apply length_imap. }
  assert (Hpairs : forall row, row ∈ spot_df -> exists rate, (ss_Pair row, rate) ∈ spot_rates).
  { intros row Hin. apply list_elem_of_lookup in Hin as [i Hi].
    unfold spot_df, FXDataSimulator.get_spot_rates in Hi.
    rewrite simulator_spot_loop in Hi. simpl in Hi.
    rewrite list_lookup_imap in Hi.
    destruct (spot_rates !! i) as [[pair rate] |] eqn:Hr; [| discriminate].
    injection Hi as <-. exists rate. apply list_elem_of_lookup. eauto. }
  destruct (curves_of_quotable (FXDataSimulator.as_fetcher self) now
              ((fun row => (ss_Pair row, ss_Spot_Rate row)) <$> spot_df)
              (length spot_rates))
    as (curves & Hcurves & Hdom & Hval).
  { rewrite length_fmap, Hlen. lia. }
  { intros pair spot Hin. apply list_elem_of_fmap in Hin as (row & [= -> ->] & Hin).
    destruct (Hpairs row Hin) as [rate Hrate]. apply (Hq _ rate Hrate). }
  { exact Hclock. }
  rewrite length_fmap in Hcurves.
  exists curves. split; [exact Hcurves |]. split.
  - intros pair. rewrite Hdom, <- list_fmap_compose.
    assert (E : (fst ∘ (fun row => (ss_Pair row, ss_Spot_Rate row))) <$> spot_df
                = fst <$> spot_rates).
    { unfold spot_df, FXDataSimulator.get_spot_rates.
      rewrite simulator_spot_loop. simpl. rewrite fmap_imap. apply imap_const. }
    rewrite E. reflexivity.
  - intros pair curve Hc. destruct (Hval pair curve Hc) as (Hwf & Hpair & spot & Hin & Hs).
    split; [exact Hwf |]. split; [exact Hpair |].
    apply list_elem_of_fmap in Hin as (row & [= -> ->] & Hin).
    exists row. auto.
Qed.

Ltac quotable_pair :=
  eapply quotable_split;
  [ reflexivity
  | unfold Spec.direction_rule; simpl; split; reflexivity
  | discriminate ].

Lemma simulator_tables_quotable pair rate :
  (pair, rate) ∈ FXDataSimulator.spot_rates ->
  Props.quotable (FXDataSimulator.interest_rates FXDataSimulator.init) pair.
Proof.
  intros Hin. unfold FXDataSimulator.spot_rates in Hin.
  repeat (apply elem_of_cons in Hin as [Hin | Hin];
          [injection Hin as -> _; quotable_pair |]).
  inversion Hin.
Qed.

Lemma usd_cad_clock_in_range n : Props.clock_in_range usd_cad_clock n.
Proof. intros k _. split; discriminate. Qed.

Lemma simulator_get_all_forward_curves_returns_witness :
  exists curves,
    FXDataSimulator.get_all_forward_curves FXDataSimulator.init
      FXDataSimulator.spot_rates (fun _ => 0.0025) usd_cad_clock = Ok curves
    /\ is_Some (curves !! "USD/CAD").
Proof.
  destruct (simulator_get_all_forward_curves_returns FXDataSimulator.init
              FXDataSimulator.spot_rates (fun _ => 0.0025) usd_cad_clock
              simulator_tables_quotable (usd_cad_clock_in_range _))
    as (curves & Hcurves & Hdom & _).
  exists curves. split; [exact Hcurves |].
  apply Hdom. do 3 right. left.
Defined.

(** X25.  When every display name of the fetcher is a pair written
    BASE/QUOTE with codes whose rates the direction rule finds, the foreign
    rate not negative, and the clock stays a year away from the last date
    that [datetime] holds, [get_all_forward_curves] returns, whatever the
    downloads do: the dict holds a curve for exactly the pairs whose ticker
    yielded a close, each curve is well formed, carries its pair, and has
    the fetched spot rate of a row of that pair as its Spot rate. *)
Theorem fetcher_get_all_forward_curves_returns
    (self : FXDataFetcher.t) (major_pairs : list string)
    (pair_names : gmap string string) (yf : string -> history) (now : clock) :
  (forall ticker name, pair_names !! ticker = Some name ->
     Props.quotable (FXDataFetcher.interest_rates self) name) ->
  Props.clock_in_range now (9 * length major_pairs) ->
  exists curves,
    FXDataFetcher.get_all_forward_curves self major_pairs pair_names yf now = Ok curves
    /\ (forall pair,
          is_Some (curves !! pair)
          <-> exists ticker rate,
                ticker ∈ major_pairs
                /\ Props.fetched pair_names yf ticker = Some (ticker, pair, rate))
    /\ (forall pair curve,
          curves !! pair = Some curve ->
          Spec.well_formed_curve curve
          /\ (forall row, row ∈ curve -> Pair row = pair)
          /\ exists spot_row,
               spot_row ∈ FXDataFetcher.get_spot_rates major_pairs pair_names yf now
               /\ fs_Pair spot_row = pair
               /\ forall row, row ∈ curve -> Tenor row = "Spot" ->
                    Forward_Rate row = fs_Spot_Rate spot_row).
Proof.
  intros Hq Hclock. unfold FXDataFetcher.get_all_forward_curves. cbv zeta.
  set (spot_df := FXDataFetcher.get_spot_rates major_pairs pair_names yf now).
  pose proof (fetcher_spot_pairs major_pairs pair_names yf now) as Hrows.
  fold spot_df in Hrows.
  set (kept := omap (Props.fetched pair_names yf) major_pairs) in *.
  assert (Hlen : (length spot_df <= length major_pairs)%nat).
  { rewrite <- (length_fmap (fun row => (fs_Pair row, fs_Spot_Rate row))), Hrows,
      length_fmap. apply omap_length_le. }
  destruct (curves_of_quotable self now
              ((fun row => (fs_Pair row, fs_Spot_Rate row)) <$> spot_df)
              (length major_pairs))
    as (curves & Hcurves & Hdom & Hval).
  { rewrite length_fmap. exact Hlen. }
  { intros pair spot Hin. rewrite Hrows in Hin.
    apply list_elem_of_fmap in Hin as (item & [= -> ->] & Hin).
    apply list_elem_of_omap in Hin as (ticker & _ & Hf).
    apply (Hq ticker). eapply fetched_name, Hf. }
  { exact Hclock. }
  rewrite length_fmap in Hcurves.
  exists curves. split; [exact Hcurves |]. split.
  - intros pair. rewrite Hdom, Hrows, <- list_fmap_compose. split.
    + intros Hin. apply list_elem_of_fmap in Hin as ([[t name] rate] & -> & Hin).
      apply list_elem_of_omap in Hin as (ticker & Hticker & Hf).
      exists ticker, rate. split; [exact Hticker |]. rewrite Hf.
      unfold Props.fetched in Hf. destruct (yf ticker); [discriminate |].
      destruct (last close); [| discriminate].
      destruct (pair_names !! ticker); [| discriminate].
      injection Hf as <- _ _. reflexivity.
    + intros (ticker & rate & Hticker & Hf).
      apply list_elem_of_fmap. exists (ticker, pair, rate). split; [reflexivity |].
      apply list_elem_of_omap. eauto.
  - intros pair curve Hc. destruct (Hval pair curve Hc) as (Hwf & Hpair & spot & Hin & Hs).
    split; [exact Hwf |]. split; [exact Hpair |].
    apply list_elem_of_fmap in Hin as (row & [= -> ->] & Hin).
    exists row. auto.
Qed.

Lemma fetcher_names_quotable ticker name :
  FXDataFetcher.pair_names !! ticker = Some name ->
  Props.quotable (FXDataFetcher.interest_rates FXDataFetcher.init) name.
Proof.
  intros H.
  assert (Hin : name ∈ ["EUR/USD"; "GBP/USD"; "USD/JPY"; "USD/CAD"; "AUD/USD"; "USD/CHF"]).
  { unfold FXDataFetcher.pair_names in H.
    repeat (apply lookup_insert_Some in H as [[_ <-] | [_ H]];
            [apply (bool_decide_unpack _); vm_compute; exact I |]).
    rewrite lookup_empty in H. discriminate. }
  repeat (apply elem_of_cons in Hin as [-> | Hin]; [quotable_pair |]).
  inversion Hin.
Qed.

Lemma fetcher_get_all_forward_curves_returns_witness :
  exists curves,
    FXDataFetcher.get_all_forward_curves FXDataFetcher.init FXDataFetcher.major_pairs
      FXDataFetcher.pair_names
      (fun ticker => if String.eqb ticker "USDCAD=X" then Closes [1.432049] else Raises)
      usd_cad_clock = Ok curves
    /\ is_Some (curves !! "USD/CAD") /\ ~ is_Some (curves !! "EUR/USD").
Proof.
  destruct (fetcher_get_all_forward_curves_returns FXDataFetcher.init
              FXDataFetcher.major_pairs FXDataFetcher.pair_names
              (fun ticker => if String.eqb ticker "USDCAD=X" then Closes [1.432049]
                             else Raises)
              usd_cad_clock fetcher_names_quotable (usd_cad_clock_in_range _))
    as (curves & Hcurves & Hdom & _).
  exists curves. split; [exact Hcurves |]. split.
  - apply Hdom. exists "USDCAD=X", 1.4320. split; [do 3 right; left | reflexivity].
  - intros Hsome. apply Hdom in Hsome as (ticker & rate & Hin & Hf).
    unfold FXDataFetcher.major_pairs in Hin.
    repeat (apply elem_of_cons in Hin as [-> | Hin]; [discriminate |]).
    inversion Hin.
Defined.
